(** * Fall-Predictor: the Streamlit form of [app.py], embedded and verified

    [app.py] is a single script.  Streamlit executes it from the first line
    to the last on every interaction: it loads the model bundle, renders the
    form, assembles the feature row and, when the "Predict" button was
    pressed, validates the device measurements and calls the classifier.

    The embedding keeps the script's own shape: Python values and
    exceptions, a dictionary as an association list in insertion order,
    binary64 numbers as the kernel's primitive floats, and the script's
    effects (what is rendered, what is read from disk, what is asked of the
    classifier) as a trace written by a small error monad. *)

From Stdlib Require Import ZArith List String Ascii Bool Lia Permutation.
From Stdlib Require Import Floats DecimalString.
Import ListNotations.

(* Decimal literals such as [0.1] denote the nearest binary64 number, as in
   Python. *)
Set Warnings "-inexact-float".

Local Open Scope string_scope.
Local Open Scope list_scope.

(** ** Python values *)

Module Py.

(** The numbers the form produces: [int] (select boxes, the medication
    counter) and [float] (every other number input and the slider). *)
Inductive scalar : Type :=
| VInt (z : Z)
| VFloat (f : float).

(** [a >= b] on floats; false as soon as one side is NaN. *)
Definition geb (a b : float) : bool := (b <=? a)%float.

(** [v == 0] on a float: true for [0.0] and [-0.0], false for NaN. *)
Definition is_zero (v : float) : bool := (v =? 0)%float.

(** A dictionary, in insertion order. *)
Definition dict (V : Type) : Type := list (string * V).

Fixpoint get {V : Type} (k : string) (d : dict V) : option V :=
  match d with
  | [] => None
  | (k', v) :: rest => if String.eqb k k' then Some v else get k rest
  end.

Definition keys {V : Type} (d : dict V) : list string := map fst d.

(** [sep.join(parts)] *)
Fixpoint join (sep : string) (parts : list string) : string :=
  match parts with
  | [] => ""
  | [s] => s
  | s :: rest => s ++ sep ++ join sep rest
  end.

(** The exceptions this script can meet. *)
Inductive exn : Type :=
| FileNotFoundError (path : string)
| UnpicklingError
| KeyError (key : string)
| TypeError
| AttributeError (attr : string)
| IndexError
| ClassifierError (msg : string).

Inductive result (A : Type) : Type :=
| Ok (a : A)
| Raise (e : exn).
Arguments Ok {A} a.
Arguments Raise {A} e.

End Py.
Import Py.

(** ** Fixed-point formatting: [f"{x:.3f}"] *)

Module Format.

(** [round(num / 2^k)] to the nearest integer, ties to the even one. *)
Definition round_half_even_shift (num : Z) (k : Z) : Z :=
  let den := Z.pow 2 k in
  let q := Z.div num den in
  let r := Z.modulo num den in
  match Z.compare (2 * r) den with
  | Lt => q
  | Gt => q + 1
  | Eq => if Z.even q then q else q + 1
  end.

(** [|m * 2^e| * 1000] rounded to an integer. *)
Definition thousandths (m : positive) (e : Z) : Z :=
  if (0 <=? e)%Z then Z.pos m * Z.pow 2 e * 1000
  else round_half_even_shift (Z.pos m * 1000) (- e).

Definition digit (d : Z) : ascii :=
  ascii_of_nat (48 + Z.to_nat d).

Definition decimals3 (n : Z) : string :=
  String (digit (n / 100 mod 10))
    (String (digit (n / 10 mod 10))
       (String (digit (n mod 10)) EmptyString)).

Definition string_of_Z (z : Z) : string :=
  NilZero.string_of_int (Z.to_int z).

Definition sign_prefix (s : bool) : string := if s then "-" else "".

Definition fixed3 (s : bool) (n : Z) : string :=
  sign_prefix s ++ string_of_Z (n / 1000) ++ "." ++ decimals3 (n mod 1000).

Definition format_3f (x : float) : string :=
  match Prim2SF x with
  | S754_nan => "nan"
  | S754_infinity s => sign_prefix s ++ "inf"
  | S754_zero s => fixed3 s 0
  | S754_finite s m e => fixed3 s (thousandths m e)
  end.

(** [f"{n}"] for an [int]. *)
Definition format_int (z : Z) : string := string_of_Z z.

End Format.
Import Format.

(** ** The libraries the script calls *)

(** *** pandas: a frame is its column labels and its rows *)

Module Pd.

Record DataFrame : Type := {
  columns : list string;
  rows : list (list scalar)
}.

(** One cell of [DataFrame(data, columns=cols)]: the record's entry under
    the column's label, NaN where the record has none. *)
Definition cell (record : dict scalar) (col : string) : scalar :=
  match get col record with
  | Some v => v
  | None => VFloat nan
  end.

(** [pd.DataFrame(data, columns=cols)] for a list of records: one column
    per requested label, in the requested order; record entries under
    other labels are left out. *)
Definition from_records (data : list (dict scalar)) (cols : list string)
  : DataFrame :=
  {| columns := cols;
     rows := map (fun record => map (cell record) cols) data |}.

(** The keys of the records, each once, in the order they first appear:
    the columns pandas takes when none are requested. *)
Fixpoint first_seen (seen : list string) (l : list string) : list string :=
  match l with
  | [] => []
  | k :: rest =>
      if existsb (String.eqb k) seen then first_seen seen rest
      else k :: first_seen (k :: seen) rest
  end.

Definition all_keys (data : list (dict scalar)) : list string :=
  first_seen [] (flat_map keys data).

(** [X[col]] in row [i]. *)
Fixpoint lookup_row (cols : list string) (row : list scalar) (col : string)
  : option scalar :=
  match cols, row with
  | c :: cols', v :: row' =>
      if String.eqb col c then Some v else lookup_row cols' row' col
  | _, _ => None
  end.

Definition at_ (X : DataFrame) (i : nat) (col : string) : option scalar :=
  match nth_error (rows X) i with
  | Some row => lookup_row (columns X) row col
  | None => None
  end.

End Pd.
Import Pd.

(** *** The classifier and the model artifact *)

(** The trained classifier is opaque: all the script asks of it is
    [predict_proba], which answers a frame with a two-dimensional array (one
    row per frame row, one column per class) or raises. *)
Record Classifier : Type := {
  predict_proba : DataFrame -> result (list (list float))
}.

(** What [bundle[key]] may hold: an object with a [predict_proba] method, a
    list of names, [None], or a scalar (a number, a string) that is none of
    these. *)
Inductive entry : Type :=
| Model (c : Classifier)
| Names (l : list string)
| PyNone
| Other.

(** What unpickling the artifact may give. *)
Inductive pickled : Type :=
| Dict (d : dict entry)
| NotADict.

Inductive file : Type :=
| Pickle (o : pickled)
| Corrupt.

(** The files the process can see, by path. *)
Definition Disk : Type := string -> option file.

(** *** Streamlit: elements and widgets *)

Module St.

Record number_input (T : Type) : Type := {
  label : string;
  min_value : option T;
  max_value : option T;
  value : T;
  step : T;
  help : option string
}.
Arguments label {T} _.
Arguments min_value {T} _.
Arguments max_value {T} _.
Arguments value {T} _.
Arguments step {T} _.
Arguments help {T} _.

Record selectbox (T : Type) : Type := {
  sb_label : string;
  sb_options : list T;
  sb_index : nat;
  sb_help : option string
}.
Arguments sb_label {T} _.
Arguments sb_options {T} _.
Arguments sb_index {T} _.
Arguments sb_help {T} _.

Record slider : Type := {
  sl_label : string;
  sl_min : float;
  sl_max : float;
  sl_value : float;
  sl_step : float
}.

Inductive element : Type :=
| Title (body : string)
| Write (body : string)
| Subheader (body : string)
| Caption (body : string)
| Markdown (body : string)
| Info (body : string)
| Divider
| Warning (body : string)
| Error (body : string)
| Success (body : string)
| SelectStr (w : selectbox string)
| SelectInt (w : selectbox Z)
| FloatInput (w : number_input float)
| IntInput (w : number_input Z)
| Slider (w : slider)
| Button (label : string).

(** The values a number input lets through: those within its bounds, a
    bound left out being no bound. *)
Definition above {T : Type} (leb : T -> T -> bool) (lo : option T) (x : T)
  : bool :=
  match lo with Some l => leb l x | None => true end.

Definition below {T : Type} (leb : T -> T -> bool) (hi : option T) (x : T)
  : bool :=
  match hi with Some h => leb x h | None => true end.

Definition admits_float (w : number_input float) (x : float) : bool :=
  above PrimFloat.leb (min_value w) x && below PrimFloat.leb (max_value w) x.

Definition admits_int (w : number_input Z) (x : Z) : bool :=
  above Z.leb (min_value w) x && below Z.leb (max_value w) x.

Definition admits_slider (w : slider) (x : float) : bool :=
  PrimFloat.leb (sl_min w) x && PrimFloat.leb x (sl_max w).

End St.
Import St.

(** ** Effects: a trace, and the two ways a run ends early *)

Inductive event : Type :=
| JoblibLoad (path : string)
| Render (e : element)
| PredictProba (X : DataFrame).

Inductive halt : Type :=
| StopException          (* [st.stop()] *)
| Uncaught (e : exn).

Definition M (A : Type) : Type := (list event * (halt + A))%type.

Definition ret {A : Type} (a : A) : M A := ([], inr a).

Definition bind {A B : Type} (m : M A) (k : A -> M B) : M B :=
  match m with
  | (t, inl h) => (t, inl h)
  | (t, inr a) => let (t', r) := k a in (t ++ t', r)
  end.

Definition emit (e : event) : M unit := ([e], inr tt).

Definition raise {A : Type} (e : exn) : M A := ([], inl (Uncaught e)).

Definition st_stop {A : Type} : M A := ([], inl StopException).

Definition trace {A : Type} (m : M A) : list event := fst m.

Definition ending {A : Type} (m : M A) : halt + A := snd m.

Declare Scope script_scope.
Delimit Scope script_scope with script.
Notation "x <- m ;; k" := (bind m (fun x => k))
  (at level 61, m at next level, right associativity) : script_scope.
Notation "m ;; k" := (bind m (fun _ => k))
  (at level 61, right associativity) : script_scope.
Local Open Scope script_scope.

(** *** The calls, as effects *)

Definition joblib_load (fs : Disk) (path : string) : M pickled :=
  emit (JoblibLoad path) ;;
  match fs path with
  | None => raise (FileNotFoundError path)
  | Some Corrupt => raise UnpicklingError
  | Some (Pickle o) => ret o
  end.

(** [bundle[key]] *)
Definition getitem (bundle : pickled) (key : string) : M entry :=
  match bundle with
  | Dict d =>
      match get key d with
      | Some v => ret v
      | None => raise (KeyError key)
      end
  | NotADict => raise TypeError
  end.

(** [pd.DataFrame(data, columns=FEATURES)]: a list of labels selects and
    orders the columns; [None] requests none, and the frame takes the
    records' own keys; an object that is no collection of labels is
    refused. *)
Definition pd_DataFrame (data : list (dict scalar)) (FEATURES : entry)
  : M DataFrame :=
  match FEATURES with
  | Names cols => ret (from_records data cols)
  | PyNone => ret (from_records data (all_keys data))
  | Model _ | Other => raise TypeError
  end.

(** [model.predict_proba(X)] *)
Definition call_predict_proba (model : entry) (X : DataFrame)
  : M (list (list float)) :=
  match model with
  | Model c =>
      emit (PredictProba X) ;;
      match predict_proba c X with
      | Ok proba => ret proba
      | Raise e => raise e
      end
  | Names _ | PyNone | Other => raise (AttributeError "predict_proba")
  end.

(** [a[i, j]] on a two-dimensional array. *)
Definition index2 (a : list (list float)) (i j : nat) : M float :=
  match nth_error a i with
  | Some row =>
      match nth_error row j with
      | Some x => ret x
      | None => raise IndexError
      end
  | None => raise IndexError
  end.

Definition st_title (body : string) : M unit := emit (Render (Title body)).
Definition st_write (body : string) : M unit := emit (Render (Write body)).
Definition st_subheader (body : string) : M unit :=
  emit (Render (Subheader body)).
Definition st_caption (body : string) : M unit := emit (Render (Caption body)).
Definition st_markdown (body : string) : M unit :=
  emit (Render (Markdown body)).
Definition st_info (body : string) : M unit := emit (Render (Info body)).
Definition st_divider : M unit := emit (Render Divider).
Definition st_warning (body : string) : M unit := emit (Render (Warning body)).
Definition st_error (body : string) : M unit := emit (Render (Error body)).
Definition st_success (body : string) : M unit := emit (Render (Success body)).

(** A widget call renders the widget and returns what the user has in it. *)
Definition st_selectbox_str (w : selectbox string) (chosen : string)
  : M string :=
  emit (Render (SelectStr w)) ;; ret chosen.
Definition st_selectbox_int (w : selectbox Z) (chosen : Z) : M Z :=
  emit (Render (SelectInt w)) ;; ret chosen.
Definition st_number_input (w : number_input float) (entered : float)
  : M float :=
  emit (Render (FloatInput w)) ;; ret entered.
Definition st_number_input_int (w : number_input Z) (entered : Z) : M Z :=
  emit (Render (IntInput w)) ;; ret entered.
Definition st_slider (w : slider) (entered : float) : M float :=
  emit (Render (Slider w)) ;; ret entered.
Definition st_button (label : string) (clicked : bool) : M bool :=
  emit (Render (Button label)) ;; ret clicked.

(** ** The script [app.py] *)

Definition nl : string := String (ascii_of_nat 10) EmptyString.

Definition ODI_URL : string :=
  "https://maic.qld.gov.au/wp-content/uploads/2016/02/Oswestry_Low_Back_Disability_Questionnaire.pdf".

Definition MODEL_PATH : string := "catboost_fall_model.joblib".

(** *** The widgets, as the script declares them (lines 24-97) *)

Definition gender_box : selectbox string :=
  {| sb_label := "Gender"; sb_options := ["Female"; "Male"]; sb_index := 0;
     sb_help := None |}.

Definition height_input : number_input float :=
  {| label := "Height (cm)"; min_value := Some 80%float;
     max_value := Some 250%float; value := 170%float; step := 0.1%float;
     help := None |}.

Definition hypertension_box : selectbox Z :=
  {| sb_label := "Hypertension (0 = No, 1 = Yes)"; sb_options := [0%Z; 1%Z];
     sb_index := 0;
     sb_help := Some "0 = No hypertension, 1 = Hypertension present." |}.

Definition medication_input : number_input Z :=
  {| label := "Medication Count"; min_value := Some 0%Z;
     max_value := Some 50%Z; value := 0%Z; step := 1%Z;
     help := Some "Total number of regularly used medications." |}.

Definition odi_input : number_input float :=
  {| label := "ODI Score (0–50)"; min_value := Some 0%float;
     max_value := Some 100%float; value := 10%float; step := 0.1%float;
     help := None |}.

Definition vas_slider : slider :=
  {| sl_label := "Low back pain intensity (0 = none, 10 = worst imaginable)";
     sl_min := 0%float; sl_max := 10%float; sl_value := 2%float;
     sl_step := 0.1%float |}.

(** The five device measurements: no bounds, [0.0] until something is
    entered. *)
Definition device_input (lbl hlp : string) : number_input float :=
  {| label := lbl; min_value := None; max_value := None; value := 0%float;
     step := 0.01%float; help := Some hlp |}.

Definition ps_velocity_input : number_input float :=
  device_input "Postural Stability Velocity (cm/s)"
    "PS = Postural Stability. Sway velocity during standing.".

Definition ps_sway_area_input : number_input float :=
  device_input "Postural Stability Sway Area (cm²)"
    "PS = Postural Stability. Sway area during standing.".

Definition ps_sway_path_input : number_input float :=
  device_input "Postural Stability Sway Path (cm)"
    "PS = Postural Stability. Total sway path length.".

Definition w_velocity_input : number_input float :=
  device_input "Walking Velocity (m/s)" "W = Walking. Walking velocity.".

Definition w_duration_input : number_input float :=
  device_input "Walking Duration (sec)"
    "W = Walking. Duration of the walking task (e.g., seconds).".

(** *** What the user has in the widgets when the script runs *)

Record UI : Type := {
  ui_gender : string;
  ui_height : float;
  ui_hypertension : Z;
  ui_medication_count : Z;
  ui_odi : float;
  ui_vas : float;
  ui_ps_velocity : float;
  ui_ps_sway_area : float;
  ui_ps_sway_path : float;
  ui_w_velocity : float;
  ui_w_duration : float;
  ui_predict : bool
}.

(** What Streamlit's widgets guarantee about those values. *)
Definition widgets_admit (ui : UI) : bool :=
  existsb (String.eqb (ui_gender ui)) (sb_options gender_box)
  && admits_float height_input (ui_height ui)
  && existsb (Z.eqb (ui_hypertension ui)) (sb_options hypertension_box)
  && admits_int medication_input (ui_medication_count ui)
  && admits_float odi_input (ui_odi ui)
  && admits_slider vas_slider (ui_vas ui)
  && admits_float ps_velocity_input (ui_ps_velocity ui)
  && admits_float ps_sway_area_input (ui_ps_sway_area ui)
  && admits_float ps_sway_path_input (ui_ps_sway_path ui)
  && admits_float w_velocity_input (ui_w_velocity ui)
  && admits_float w_duration_input (ui_w_duration ui).

(** *** The script's variables once the form has been rendered *)

Record Fields : Type := {
  gender : Z;
  height_cm : float;
  hypertension : Z;
  medication_count : Z;
  odi : float;
  vas : float;
  ps_velocity : float;
  ps_sway_area : float;
  ps_sway_path : float;
  w_velocity : float;
  w_duration : float
}.

(** Lines 14-100.  The [with col:] blocks only place the widgets on the
    page; the calls run in the order written. *)
Definition form (ui : UI) : M Fields :=
  st_title "Fall risk predictor for older adults (>60 years old) with low back pain" ;;
  st_write ("The predicted fall risk is generated using a trained machine learning model (CatBoost). "
            ++ "This output is intended for **research and supportive screening purposes only**. "
            ++ "Final clinical decisions should always be made by qualified healthcare professionals.") ;;
  st_subheader "Participant Inputs" ;;
  gender_txt <- st_selectbox_str gender_box (ui_gender ui) ;;
  let gender := if String.eqb gender_txt "Female" then 0%Z else 1%Z in
  st_caption "Coding: Female = 0, Male = 1" ;;
  height_cm <- st_number_input height_input (ui_height ui) ;;
  hypertension <- st_selectbox_int hypertension_box (ui_hypertension ui) ;;
  medication_count <-
    st_number_input_int medication_input (ui_medication_count ui) ;;
  st_markdown "**ODI (Oswestry Disability Index)**" ;;
  st_markdown ("[Open ODI questionnaire PDF](" ++ ODI_URL ++ ")  " ++ nl
               ++ "Please complete the questionnaire and enter the final ODI score (0–50) below.") ;;
  odi <- st_number_input odi_input (ui_odi ui) ;;
  st_markdown "**VAS (Visual Analogue Scale)**" ;;
  vas <- st_slider vas_slider (ui_vas ui) ;;
  st_divider ;;
  st_subheader "Postural Stability (PS) & Walking (W) Measures" ;;
  st_info ("📱 **Measurement Requirement**  " ++ nl
           ++ "For accurate model performance, **Postural Stability (PS)** and **Walking (W)** tests "
           ++ "must be performed using the **Lockhart Monitor** application.  " ++ nl ++ nl
           ++ "Please download **Lockhart Monitor** to your smartphone. "
           ++ "Follow the in-app instructions to perform:  " ++ nl
           ++ "- **Postural Stability Test:** 30 seconds standing test  " ++ nl
           ++ "- **Walking Test:** 5-meter walking test  " ++ nl ++ nl
           ++ "After completing the tests, enter the obtained values below.") ;;
  ps_velocity <- st_number_input ps_velocity_input (ui_ps_velocity ui) ;;
  ps_sway_area <- st_number_input ps_sway_area_input (ui_ps_sway_area ui) ;;
  ps_sway_path <- st_number_input ps_sway_path_input (ui_ps_sway_path ui) ;;
  w_velocity <- st_number_input w_velocity_input (ui_w_velocity ui) ;;
  w_duration <- st_number_input w_duration_input (ui_w_duration ui) ;;
  st_divider ;;
  st_subheader "Prediction" ;;
  ret {| gender := gender; height_cm := height_cm;
         hypertension := hypertension; medication_count := medication_count;
         odi := odi; vas := vas; ps_velocity := ps_velocity;
         ps_sway_area := ps_sway_area; ps_sway_path := ps_sway_path;
         w_velocity := w_velocity; w_duration := w_duration |}.

(** Lines 105-117. *)
Definition input_dict (v : Fields) : dict scalar :=
  [ ("Gender", VInt (gender v));
    ("Height", VFloat (height_cm v));
    ("Hypertension", VInt (hypertension v));
    ("ODI", VFloat (odi v));
    ("VAS", VFloat (vas v));
    ("PS_Velocity", VFloat (ps_velocity v));
    ("PS_Sway_Area", VFloat (ps_sway_area v));
    ("PS_Sway_Path", VFloat (ps_sway_path v));
    ("W_Velocity", VFloat (w_velocity v));
    ("W_Duration", VFloat (w_duration v));
    ("Medication_Count", VInt (medication_count v)) ].

(** Line 119. *)
Definition X_input (FEATURES : entry) (v : Fields) : M DataFrame :=
  pd_DataFrame [input_dict v] FEATURES.


(** Lines 126-132. *)
Definition required_fields (v : Fields) : dict float :=
  [ ("Postural Stability Velocity", ps_velocity v);
    ("Postural Stability Sway Area", ps_sway_area v);
    ("Postural Stability Sway Path", ps_sway_path v);
    ("Walking Velocity", w_velocity v);
    ("Walking Duration", w_duration v) ].

(** Line 134. *)
Definition missing (v : Fields) : list string :=
  map fst (filter (fun item => is_zero (snd item)) (required_fields v)).

(** Lines 137-141. *)
Definition warning_text (missing : list string) : string :=
  "⚠️ Please complete the Postural Stability and Walking test measurements "
  ++ "using the Lockhart Monitor app before prediction." ++ nl ++ nl
  ++ "Missing or zero values: " ++ join ", " missing.

(** Line 146. *)
Definition pred (proba_fall : float) : Z :=
  if geb proba_fall 0.50%float then 1%Z else 0%Z.

Definition high_banner : element :=
  Error "**High Fall Risk** (Predicted: Faller = 1)".

Definition low_banner : element :=
  Success "**Low Fall Risk** (Predicted: Non-faller = 0)".

Definition probability_line (proba_fall : float) : element :=
  Write ("**Probability of Faller (%):** `" ++ format_3f proba_fall ++ "`").

Definition status_line (pred : Z) : element :=
  Write ("**Predicted Fall Status:** `" ++ format_int pred ++ "`").

(** Lines 126-154, the body of [if st.button("Predict"):].  It returns the
    last values of [proba_fall] and [pred]. *)
Definition validate_and_predict (model : entry) (X_input : DataFrame)
    (v : Fields) : M (float * Z) :=
  let missing := missing v in
  if (0 <? List.length missing)%nat then
    st_warning (warning_text missing) ;;
    st_stop
  else
    proba <- call_predict_proba model X_input ;;
    p <- index2 proba 0 1 ;;
    let proba_fall := p in
    let pred := pred proba_fall in
    emit (Render (probability_line proba_fall)) ;;
    emit (Render (status_line pred)) ;;
    (if (pred =? 1)%Z then emit (Render high_banner)
     else emit (Render low_banner)) ;;
    ret (proba_fall, pred).

(** Lines 10-12. *)
Definition load_bundle (fs : Disk) : M (entry * entry) :=
  bundle <- joblib_load fs MODEL_PATH ;;
  model <- getitem bundle "model" ;;
  FEATURES <- getitem bundle "features" ;;
  ret (model, FEATURES).

(** One run of the whole script.  [None] is a run in which the button was
    not pressed. *)
Definition script (fs : Disk) (ui : UI) : M (option (float * Z)) :=
  loaded <- load_bundle fs ;;
  let model := fst loaded in
  let FEATURES := snd loaded in
  v <- form ui ;;
  X <- X_input FEATURES v ;;
  clicked <- st_button "Predict" (ui_predict ui) ;;
  if clicked then
    r <- validate_and_predict model X v ;;
    ret (Some r)
  else ret None.

(** A session: Streamlit runs the script anew on every interaction, each
    time against the disk as it then is. *)
Definition session (steps : list (Disk * UI)) : list (M (option (float * Z))) :=
  map (fun step => script (fst step) (snd step)) steps.

(** ** Reading a run *)

(** The variables the form leaves behind, written out. *)
Definition fields_of (ui : UI) : Fields :=
  {| gender := if String.eqb (ui_gender ui) "Female" then 0%Z else 1%Z;
     height_cm := ui_height ui;
     hypertension := ui_hypertension ui;
     medication_count := ui_medication_count ui;
     odi := ui_odi ui;
     vas := ui_vas ui;
     ps_velocity := ui_ps_velocity ui;
     ps_sway_area := ui_ps_sway_area ui;
     ps_sway_path := ui_ps_sway_path ui;
     w_velocity := ui_w_velocity ui;
     w_duration := ui_w_duration ui |}.

(** The frames the classifier was asked about, in order. *)
Definition inference_calls (t : list event) : list DataFrame :=
  flat_map (fun e => match e with PredictProba X => [X] | _ => [] end) t.

(** What reached the page, in order. *)
Definition rendered (t : list event) : list element :=
  flat_map (fun e => match e with Render el => [el] | _ => [] end) t.

(** How often the artifact was read. *)
Definition loads (t : list event) : nat :=
  List.length (filter (fun e => match e with JoblibLoad _ => true | _ => false end) t).

Definition is_high_banner (e : element) : bool :=
  match e with
  | Error body => prefix "**High Fall Risk**" body
  | _ => false
  end.

Definition is_low_banner (e : element) : bool :=
  match e with
  | Success body => prefix "**Low Fall Risk**" body
  | _ => false
  end.

(** Elements that tell a prediction: the two result lines and the banners. *)
Definition shows_prediction (e : element) : bool :=
  match e with
  | Write body =>
      prefix "**Probability of Faller" body
      || prefix "**Predicted Fall Status" body
  | _ => is_high_banner e || is_low_banner e
  end.

(** All five device measurements are nonzero. *)
Definition valid (v : Fields) : bool :=
  forallb (fun item => negb (is_zero (snd item))) (required_fields v).

(** A number that is a probability. *)
Definition is_probability (p : float) : bool :=
  ((0 <=? p) && (p <=? 1))%float.

(** The classifier answers every frame with one row per frame row, holding
    the probabilities of the two classes. *)
Definition returns_class_probabilities (c : Classifier) : Prop :=
  forall X, exists proba,
    predict_proba c X = Ok proba
    /\ List.length proba = List.length (rows X)
    /\ Forall (fun row => List.length row = 2%nat
                          /\ Forall (fun p => is_probability p = true) row)
         proba.

(** The artifact holds a dictionary with a classifier under ["model"] and a
    list of names under ["features"]. *)
Definition holds_bundle (fs : Disk) (c : Classifier) (cols : list string)
  : Prop :=
  exists d, fs MODEL_PATH = Some (Pickle (Dict d))
            /\ get "model" d = Some (Model c)
            /\ get "features" d = Some (Names cols).

(** The artifact is absent, unreadable, or lacks one of the two entries. *)
Definition artifact_unusable (fs : Disk) : Prop :=
  match fs MODEL_PATH with
  | None | Some Corrupt | Some (Pickle NotADict) => True
  | Some (Pickle (Dict d)) => get "model" d = None \/ get "features" d = None
  end.

Definition is_digit (c : ascii) : bool :=
  (48 <=? nat_of_ascii c)%nat && (nat_of_ascii c <=? 57)%nat.

Fixpoint all_digits (s : string) : bool :=
  match s with
  | EmptyString => true
  | String c rest => is_digit c && all_digits rest
  end.

(** [s] is an optional minus sign, at least one digit, a point and exactly
    three digits. *)
Definition three_decimals (s : string) : Prop :=
  exists (neg : bool) (whole : string) (d1 d2 d3 : ascii),
    s = (sign_prefix neg ++ whole ++ "."
         ++ String d1 (String d2 (String d3 EmptyString)))%string
    /\ whole <> EmptyString
    /\ all_digits whole = true
    /\ is_digit d1 = true /\ is_digit d2 = true /\ is_digit d3 = true.

(** At least one of the five device measurements compares equal to zero. *)
Definition some_zero (v : Fields) : Prop :=
  is_zero (ps_velocity v) = true
  \/ is_zero (ps_sway_area v) = true
  \/ is_zero (ps_sway_path v) = true
  \/ is_zero (w_velocity v) = true
  \/ is_zero (w_duration v) = true.

(** All five device measurements are below zero. *)
Definition all_negative (v : Fields) : Prop :=
  (ps_velocity v <? 0)%float = true
  /\ (ps_sway_area v <? 0)%float = true
  /\ (ps_sway_path v <? 0)%float = true
  /\ (w_velocity v <? 0)%float = true
  /\ (w_duration v <? 0)%float = true.

(** The part of the script below the form (lines 105-154). *)
Definition below_form (model FEATURES : entry) (clicked : bool) (v : Fields)
  : M (option (float * Z)) :=
  X <- X_input FEATURES v ;;
  clicked <- st_button "Predict" clicked ;;
  if clicked then
    r <- validate_and_predict model X v ;;
    ret (Some r)
  else ret None.

(** *** Concrete inputs *)

(** A classifier that answers every row with the same probability [p] of
    the positive class. *)
Definition constant_classifier (p : float) : Classifier :=
  {| predict_proba :=
       fun X => Ok (map (fun _ => [(1 - p)%float; p]) (rows X)) |}.

(** A disk holding only the artifact, with the given classifier and names. *)
Definition disk_with (c : Classifier) (cols : list string) : Disk :=
  fun path =>
    if String.eqb path MODEL_PATH
    then Some (Pickle (Dict [("model", Model c); ("features", Names cols)]))
    else None.

Definition empty_disk : Disk := fun _ => None.

Definition trained_features : list string :=
  ["Gender"; "Height"; "Hypertension"; "ODI"; "VAS"; "PS_Velocity";
   "PS_Sway_Area"; "PS_Sway_Path"; "W_Velocity"; "W_Duration";
   "Medication_Count"].

(** The form with its initial values and the five measurements entered. *)
Definition measured_ui (a b c d e : float) : UI :=
  {| ui_gender := "Female"; ui_height := 170%float; ui_hypertension := 0%Z;
     ui_medication_count := 0%Z; ui_odi := 10%float; ui_vas := 2%float;
     ui_ps_velocity := a; ui_ps_sway_area := b; ui_ps_sway_path := c;
     ui_w_velocity := d; ui_w_duration := e; ui_predict := true |}.

Definition scenario_ui : UI :=
  measured_ui 12.3%float 4.5%float 30%float 0.9%float 6.2%float.

Definition untouched_ui : UI :=
  measured_ui 0%float 0%float 0%float 0%float 0%float.

(** *** Further readings of a run *)

(** The three elements a prediction adds below the button. *)
Definition prediction_lines (p : float) (l : Z) : list element :=
  [probability_line p; status_line l;
   if (l =? 1)%Z then high_banner else low_banner].


(** The five device inputs still hold the value they were declared with. *)
Definition device_inputs_untouched (ui : UI) : Prop :=
  ui_ps_velocity ui = value ps_velocity_input
  /\ ui_ps_sway_area ui = value ps_sway_area_input
  /\ ui_ps_sway_path ui = value ps_sway_path_input
  /\ ui_w_velocity ui = value w_velocity_input
  /\ ui_w_duration ui = value w_duration_input.

(** A disk whose bundle carries entries besides the two the script reads. *)
Definition disk_with_more (c : Classifier) (cols : list string) : Disk :=
  fun path =>
    if String.eqb path MODEL_PATH
    then Some (Pickle (Dict [("version", Other); ("model", Model c);
                             ("threshold", Other);
                             ("features", Names cols)]))
    else if String.eqb path "notes.txt" then Some Corrupt
    else None.

(** A filled form on which the button has not been pressed. *)
Definition idle_ui : UI :=
  {| ui_gender := "Male"; ui_height := 181.5%float; ui_hypertension := 1%Z;
     ui_medication_count := 3%Z; ui_odi := 24%float; ui_vas := 6.5%float;
     ui_ps_velocity := 12.3%float; ui_ps_sway_area := 4.5%float;
     ui_ps_sway_path := 30%float; ui_w_velocity := 0.9%float;
     ui_w_duration := 6.2%float; ui_predict := false |}.

(** A disk holding only the artifact, with the given dictionary in it. *)
Definition disk_of (d : dict entry) : Disk :=
  fun path =>
    if String.eqb path MODEL_PATH then Some (Pickle (Dict d)) else None.

(** * Properties *)

(** ** The monad *)

Lemma bind_ok {A B : Type} (t : list event) (a : A) (k : A -> M B) :
  bind (t, inr a) k = (t ++ trace (k a), ending (k a)).
Proof. unfold bind, trace, ending. destruct (k a); reflexivity. Qed.

Lemma bind_halt {A B : Type} (t : list event) (h : halt) (k : A -> M B) :
  bind (t, inl h) k = (t, inl h).
Proof. reflexivity. Qed.

Lemma inference_calls_app (t u : list event) :
  inference_calls (t ++ u) = inference_calls t ++ inference_calls u.
Proof. unfold inference_calls. apply flat_map_app. Qed.

Lemma rendered_app (t u : list event) :
  rendered (t ++ u) = rendered t ++ rendered u.
Proof. unfold rendered. apply flat_map_app. Qed.

(** ** The form *)

Lemma form_eta (ui : UI) : form ui = (trace (form ui), inr (fields_of ui)).
Proof. reflexivity. Qed.

Lemma form_trace_fixed (ui ui' : UI) : trace (form ui) = trace (form ui').
Proof. reflexivity. Qed.

Lemma form_quiet (ui : UI) :
  inference_calls (trace (form ui)) = []
  /\ filter shows_prediction (rendered (trace (form ui))) = []
  /\ loads (trace (form ui)) = 0%nat.
Proof. repeat split; vm_compute; reflexivity. Qed.

(** ** The shape of a run *)

Lemma load_bundle_ok (fs : Disk) (d : dict entry) (m F : entry) :
  fs MODEL_PATH = Some (Pickle (Dict d)) ->
  get "model" d = Some m ->
  get "features" d = Some F ->
  load_bundle fs = ([JoblibLoad MODEL_PATH], inr (m, F)).
Proof.
  intros Hfs Hm HF. unfold load_bundle, joblib_load, getitem.
  rewrite Hfs. cbn. rewrite Hm. cbn. rewrite HF. reflexivity.
Qed.

Lemma script_after_load (fs : Disk) (ui : UI) (d : dict entry)
    (m F : entry) :
  fs MODEL_PATH = Some (Pickle (Dict d)) ->
  get "model" d = Some m ->
  get "features" d = Some F ->
  script fs ui =
    (JoblibLoad MODEL_PATH
       :: trace (form ui)
       ++ trace (below_form m F (ui_predict ui) (fields_of ui)),
     ending (below_form m F (ui_predict ui) (fields_of ui))).
Proof.
  intros Hfs Hm HF. unfold script.
  rewrite (load_bundle_ok fs d m F Hfs Hm HF), bind_ok.
  cbn [fst snd]. rewrite (form_eta ui) at 1 2.
  rewrite bind_ok.
  fold (below_form m F (ui_predict ui) (fields_of ui)).
  unfold trace at 1, ending at 1. cbn [fst snd].
  unfold trace at 1, ending at 1. cbn [fst snd app].
  reflexivity.
Qed.

Lemma valid_missing (v : Fields) :
  valid v = negb (0 <? List.length (missing v))%nat.
Proof.
  unfold valid, missing.
  induction (required_fields v) as [|[name val] rest IH]; [reflexivity|].
  cbn [forallb filter snd]. destruct (is_zero val); cbn.
  - reflexivity.
  - exact IH.
Qed.

Lemma validate_stops (m : entry) (X : DataFrame) (v : Fields) :
  valid v = false ->
  validate_and_predict m X v =
    ([Render (Warning (warning_text (missing v)))], inl StopException).
Proof.
  intro Hv. rewrite valid_missing in Hv.
  apply negb_false_iff in Hv.
  unfold validate_and_predict. rewrite Hv. reflexivity.
Qed.

Lemma validate_predicts (c : Classifier) (X : DataFrame) (v : Fields)
    (proba : list (list float)) (p : float) :
  valid v = true ->
  predict_proba c X = Ok proba ->
  index2 proba 0 1 = ret p ->
  validate_and_predict (Model c) X v =
    ([PredictProba X;
      Render (probability_line p);
      Render (status_line (pred p));
      Render (if (pred p =? 1)%Z then high_banner else low_banner)],
     inr (p, pred p)).
Proof.
  intros Hv Hc Hi. rewrite valid_missing in Hv.
  apply negb_true_iff in Hv.
  unfold validate_and_predict, call_predict_proba. rewrite Hv, Hc.
  cbn [emit ret bind app]. rewrite Hi. cbn [emit ret bind app].
  destruct (pred p =? 1)%Z; reflexivity.
Qed.

Lemma script_stops (fs : Disk) (ui : UI) (d : dict entry) (m : entry)
    (cols : list string) :
  fs MODEL_PATH = Some (Pickle (Dict d)) ->
  get "model" d = Some m ->
  get "features" d = Some (Names cols) ->
  ui_predict ui = true ->
  valid (fields_of ui) = false ->
  script fs ui =
    (JoblibLoad MODEL_PATH
       :: trace (form ui)
       ++ [Render (Button "Predict");
           Render (Warning (warning_text (missing (fields_of ui))))],
     inl StopException).
Proof.
  intros Hfs Hm HF Hb Hv.
  rewrite (script_after_load fs ui d m (Names cols) Hfs Hm HF).
  unfold below_form, X_input, pd_DataFrame, st_button. rewrite Hb.
  cbn [emit ret bind app]. rewrite (validate_stops _ _ _ Hv).
  reflexivity.
Qed.

Lemma script_predicts (fs : Disk) (ui : UI) (c : Classifier)
    (cols : list string) (proba : list (list float)) (p : float) :
  holds_bundle fs c cols ->
  ui_predict ui = true ->
  valid (fields_of ui) = true ->
  predict_proba c (from_records [input_dict (fields_of ui)] cols) = Ok proba ->
  index2 proba 0 1 = ret p ->
  script fs ui =
    (JoblibLoad MODEL_PATH
       :: trace (form ui)
       ++ [Render (Button "Predict");
           PredictProba (from_records [input_dict (fields_of ui)] cols);
           Render (probability_line p);
           Render (status_line (pred p));
           Render (if (pred p =? 1)%Z then high_banner else low_banner)],
     inr (Some (p, pred p))).
Proof.
  intros (d & Hfs & Hm & HF) Hb Hv Hc Hi.
  rewrite (script_after_load fs ui d _ _ Hfs Hm HF).
  unfold below_form, X_input, pd_DataFrame, st_button. rewrite Hb.
  cbn [emit ret bind app].
  rewrite (validate_predicts c _ _ proba p Hv Hc Hi).
  reflexivity.
Qed.

Lemma load_bundle_fails (fs : Disk) :
  artifact_unusable fs ->
  exists e, load_bundle fs = ([JoblibLoad MODEL_PATH], inl (Uncaught e)).
Proof.
  unfold artifact_unusable, load_bundle, joblib_load, getitem.
  destruct (fs MODEL_PATH) as [[[d|]|]|]; intro H; cbn.
  - destruct (get "model" d) as [m|] eqn:Hm; cbn.
    + destruct H as [H|H]; [discriminate|]. rewrite H. cbn. eauto.
    + eauto.
  - eauto.
  - eauto.
  - eauto.
Qed.

Lemma artifact_cases (fs : Disk) :
  artifact_unusable fs
  \/ exists d m F, fs MODEL_PATH = Some (Pickle (Dict d))
                   /\ get "model" d = Some m /\ get "features" d = Some F.
Proof.
  unfold artifact_unusable.
  destruct (fs MODEL_PATH) as [[[d|]|]|]; auto.
  destruct (get "model" d) as [m|] eqn:Hm; auto.
  destruct (get "features" d) as [F|] eqn:HF; auto.
  right. exists d, m, F. auto.
Qed.

Lemma script_load_fails (fs : Disk) (ui : UI) :
  artifact_unusable fs ->
  exists e, script fs ui = ([JoblibLoad MODEL_PATH], inl (Uncaught e)).
Proof.
  intro H. destruct (load_bundle_fails fs H) as [e He].
  exists e. unfold script. rewrite He. reflexivity.
Qed.

Lemma index2_cases (a : list (list float)) (i j : nat) :
  (exists x, index2 a i j = ret x) \/ index2 a i j = raise IndexError.
Proof.
  unfold index2. destruct (nth_error a i) as [row|]; auto.
  destruct (nth_error row j) as [x|]; eauto.
Qed.

(** Line 119 builds a frame or is refused. *)
Lemma X_input_cases (F : entry) (v : Fields) :
  (exists X, X_input F v = ret X) \/ X_input F v = raise TypeError.
Proof.
  unfold X_input, pd_DataFrame. destruct F; eauto.
Qed.

Lemma below_form_frame (m F : entry) (clicked : bool) (v : Fields)
    (X : DataFrame) :
  X_input F v = ret X ->
  below_form m F clicked v =
    (Render (Button "Predict")
       :: (if clicked then trace (validate_and_predict m X v) else []),
     if clicked
     then match ending (validate_and_predict m X v) with
          | inl h => inl h
          | inr r => inr (Some r)
          end
     else inr None).
Proof.
  intro HX. unfold below_form. rewrite HX. unfold st_button.
  destruct clicked; [|reflexivity].
  cbn [emit ret bind app].
  destruct (validate_and_predict m X v) as [t [h|r]];
    cbn [bind ret trace ending fst snd app]; rewrite ?app_nil_r; reflexivity.
Qed.

Lemma below_form_refused (m F : entry) (clicked : bool) (v : Fields) :
  X_input F v = raise TypeError ->
  below_form m F clicked v = ([], inl (Uncaught TypeError)).
Proof. intro HX. unfold below_form. rewrite HX. reflexivity. Qed.

(** A run that ends with a prediction went all the way: the bundle was
    there with a classifier in it, the frame was built, the button was
    pressed, the measurements were nonzero and the classifier answered. *)
Lemma script_success (fs : Disk) (ui : UI) (p : float) (l : Z) :
  ending (script fs ui) = inr (Some (p, l)) ->
  exists d c F X proba,
    fs MODEL_PATH = Some (Pickle (Dict d))
    /\ get "model" d = Some (Model c)
    /\ get "features" d = Some F
    /\ X_input F (fields_of ui) = ret X
    /\ ui_predict ui = true
    /\ valid (fields_of ui) = true
    /\ predict_proba c X = Ok proba
    /\ index2 proba 0 1 = ret p
    /\ l = pred p.
Proof.
  intro H.
  destruct (artifact_cases fs) as [Hbad | (d & m & F & Hfs & Hm & HF)].
  - destruct (script_load_fails fs ui Hbad) as [e He].
    rewrite He in H. discriminate.
  - rewrite (script_after_load fs ui d m F Hfs Hm HF) in H.
    unfold ending in H. cbn [snd] in H.
    destruct (X_input_cases F (fields_of ui)) as [[X HX]|HX].
    + rewrite (below_form_frame m F _ _ X HX) in H. cbn [snd] in H.
      destruct (ui_predict ui) eqn:Hb; try discriminate.
      destruct (valid (fields_of ui)) eqn:Hv.
      * destruct m as [c|names| |].
        -- destruct (predict_proba c X) as [proba|e] eqn:Hc.
           ++ destruct (index2_cases proba 0 1) as [[x Hx]|Hx].
              ** rewrite (validate_predicts c _ _ proba x Hv Hc Hx) in H.
                 cbn in H. injection H as Hp Hl. subst x.
                 exists d, c, F, X, proba. repeat split; auto.
              ** unfold validate_and_predict, call_predict_proba in H.
                 rewrite valid_missing in Hv. apply negb_true_iff in Hv.
                 rewrite Hv, Hc in H. cbn [emit ret bind app] in H.
                 rewrite Hx in H. discriminate.
           ++ unfold validate_and_predict, call_predict_proba in H.
              rewrite valid_missing in Hv. apply negb_true_iff in Hv.
              rewrite Hv, Hc in H. discriminate.
        -- unfold validate_and_predict, call_predict_proba in H.
           rewrite valid_missing in Hv. apply negb_true_iff in Hv.
           rewrite Hv in H. discriminate.
        -- unfold validate_and_predict, call_predict_proba in H.
           rewrite valid_missing in Hv. apply negb_true_iff in Hv.
           rewrite Hv in H. discriminate.
        -- unfold validate_and_predict, call_predict_proba in H.
           rewrite valid_missing in Hv. apply negb_true_iff in Hv.
           rewrite Hv in H. discriminate.
      * rewrite (validate_stops _ _ _ Hv) in H. discriminate.
    + rewrite (below_form_refused m F _ _ HX) in H. discriminate.
Qed.

(** The whole run, once the frame is built and the classifier answers. *)
Lemma script_predicts_frame (fs : Disk) (ui : UI) (d : dict entry)
    (c : Classifier) (F : entry) (X : DataFrame)
    (proba : list (list float)) (p : float) :
  fs MODEL_PATH = Some (Pickle (Dict d)) ->
  get "model" d = Some (Model c) ->
  get "features" d = Some F ->
  X_input F (fields_of ui) = ret X ->
  ui_predict ui = true ->
  valid (fields_of ui) = true ->
  predict_proba c X = Ok proba ->
  index2 proba 0 1 = ret p ->
  script fs ui =
    (JoblibLoad MODEL_PATH
       :: trace (form ui)
       ++ [Render (Button "Predict");
           PredictProba X;
           Render (probability_line p);
           Render (status_line (pred p));
           Render (if (pred p =? 1)%Z then high_banner else low_banner)],
     inr (Some (p, pred p))).
Proof.
  intros Hfs Hm HF HX Hb Hv Hc Hi.
  rewrite (script_after_load fs ui d _ _ Hfs Hm HF).
  rewrite (below_form_frame _ F _ _ X HX), Hb.
  rewrite (validate_predicts c X _ proba p Hv Hc Hi).
  reflexivity.
Qed.

(** ** The decision threshold *)

Lemma pred_cases (p : float) : pred p = 1%Z \/ pred p = 0%Z.
Proof. unfold pred. destruct (geb p 0.5); auto. Qed.


(** ** Validation of the device measurements *)

Lemma valid_false_iff (v : Fields) : valid v = false <-> some_zero v.
Proof.
  unfold valid, some_zero, required_fields. cbn [forallb snd].
  destruct (is_zero (ps_velocity v)), (is_zero (ps_sway_area v)),
    (is_zero (ps_sway_path v)), (is_zero (w_velocity v)),
    (is_zero (w_duration v)); cbn; intuition discriminate.
Qed.

Lemma valid_true_iff (v : Fields) : valid v = true <-> ~ some_zero v.
Proof.
  rewrite <- valid_false_iff. destruct (valid v); intuition discriminate.
Qed.

Lemma missing_spec (v : Fields) (name : string) :
  In name (missing v)
  <-> exists val, In (name, val) (required_fields v) /\ is_zero val = true.
Proof.
  unfold missing. rewrite in_map_iff. split.
  - intros ([n val] & Hn & Hin). cbn in Hn. subst n.
    apply filter_In in Hin. exists val. exact Hin.
  - intros (val & Hin & Hz). exists (name, val). split; [reflexivity|].
    apply filter_In. split; assumption.
Qed.

Lemma missing_nonempty (v : Fields) : valid v = false -> missing v <> [].
Proof.
  intros Hv Hm. rewrite valid_missing, Hm in Hv. discriminate.
Qed.

Lemma negative_is_not_zero (x : float) :
  (x <? 0)%float = true -> is_zero x = false.
Proof.
  unfold is_zero. rewrite ltb_spec, eqb_spec. unfold SFltb, SFeqb.
  destruct (SFcompare (Prim2SF x) (Prim2SF 0)) as [[| |]|];
    intro H; try discriminate; reflexivity.
Qed.

Lemma all_negative_valid (v : Fields) : all_negative v -> valid v = true.
Proof.
  intros (H1 & H2 & H3 & H4 & H5).
  unfold valid, required_fields. cbn [forallb snd].
  rewrite !negative_is_not_zero by assumption. reflexivity.
Qed.

(** What the button's body asks of the classifier. *)
Lemma validate_calls (m : entry) (X : DataFrame) (v : Fields) :
  inference_calls (trace (validate_and_predict m X v)) =
    match m with
    | Model _ => if valid v then [X] else []
    | Names _ | PyNone | Other => []
    end.
Proof.
  destruct (valid v) eqn:Hv.
  - pose proof Hv as Hv'. rewrite valid_missing in Hv'.
    apply negb_true_iff in Hv'.
    unfold validate_and_predict, call_predict_proba. rewrite Hv'.
    destruct m as [c|names| |]; try reflexivity.
    cbn [emit ret bind app].
    destruct (predict_proba c X) as [proba|e]; [|reflexivity].
    cbn [emit ret bind app].
    destruct (index2_cases proba 0 1) as [[x Hx]|Hx]; rewrite Hx.
    + cbn [ret bind app emit]. destruct (pred x =? 1)%Z; reflexivity.
    + reflexivity.
  - rewrite (validate_stops m X v Hv). destruct m; reflexivity.
Qed.

(** With nonzero measurements the button's body never ends in
    [st.stop()]. *)
Lemma validate_valid_not_stopped (m : entry) (X : DataFrame) (v : Fields) :
  valid v = true -> ending (validate_and_predict m X v) <> inl StopException.
Proof.
  intro Hv. rewrite valid_missing in Hv. apply negb_true_iff in Hv.
  unfold validate_and_predict, call_predict_proba. rewrite Hv.
  destruct m as [c|names| |]; try (cbn; discriminate).
  cbn [emit ret bind app].
  destruct (predict_proba c X) as [proba|e]; [|cbn; discriminate].
  cbn [emit ret bind app].
  destruct (index2_cases proba 0 1) as [[x Hx]|Hx]; rewrite Hx.
  - cbn [ret bind app emit]. destruct (pred x =? 1)%Z; cbn; discriminate.
  - cbn. discriminate.
Qed.

(** The trace of a run whose bundle loaded. *)
Lemma script_trace_loaded (fs : Disk) (ui : UI) (d : dict entry) (m : entry)
    (cols : list string) :
  fs MODEL_PATH = Some (Pickle (Dict d)) ->
  get "model" d = Some m ->
  get "features" d = Some (Names cols) ->
  ui_predict ui = true ->
  trace (script fs ui) =
    JoblibLoad MODEL_PATH
      :: trace (form ui)
      ++ Render (Button "Predict")
      :: trace (validate_and_predict m
                  (from_records [input_dict (fields_of ui)] cols)
                  (fields_of ui)).
Proof.
  intros Hfs Hm HF Hb.
  rewrite (script_after_load fs ui d m (Names cols) Hfs Hm HF).
  unfold below_form, X_input, pd_DataFrame, st_button. rewrite Hb.
  cbn [emit ret bind app].
  destruct (validate_and_predict m _ (fields_of ui)) as [t [h|r]];
    cbn [bind ret trace fst app]; rewrite ?app_nil_r; reflexivity.
Qed.

(** Every run asks the classifier nothing, or asks it once, about the
    frame line 119 built. *)
Lemma script_inference (fs : Disk) (ui : UI) :
  inference_calls (trace (script fs ui)) = []
  \/ exists d c F X,
       fs MODEL_PATH = Some (Pickle (Dict d))
       /\ get "model" d = Some (Model c)
       /\ get "features" d = Some F
       /\ X_input F (fields_of ui) = ret X
       /\ ui_predict ui = true
       /\ valid (fields_of ui) = true
       /\ inference_calls (trace (script fs ui)) = [X].
Proof.
  destruct (artifact_cases fs) as [Hbad | (d & m & F & Hfs & Hm & HF)].
  - destruct (script_load_fails fs ui Hbad) as [e He].
    left. rewrite He. reflexivity.
  - destruct (form_quiet ui) as (Hq & _ & _).
    rewrite (script_after_load fs ui d m F Hfs Hm HF). cbn [trace fst].
    change (JoblibLoad MODEL_PATH :: ?t) with ([JoblibLoad MODEL_PATH] ++ t).
    rewrite !inference_calls_app, Hq.
    destruct (X_input_cases F (fields_of ui)) as [[X HX]|HX].
    + rewrite (below_form_frame m F _ _ X HX). cbn [trace fst].
      destruct (ui_predict ui) eqn:Hb; [|left; reflexivity].
      change (Render (Button "Predict") :: ?t)
        with ([Render (Button "Predict")] ++ t).
      rewrite inference_calls_app, validate_calls.
      destruct m as [c|names| |]; try (left; reflexivity).
      destruct (valid (fields_of ui)) eqn:Hv; [|left; reflexivity].
      right. exists d, c, F, X. repeat split; auto.
    + left. rewrite (below_form_refused m F _ _ HX). reflexivity.
Qed.

(** With the bundle loaded, the button pressed and nonzero measurements,
    the classifier is asked exactly once, whatever it then answers. *)
Lemma script_inference_valid (fs : Disk) (ui : UI) (c : Classifier)
    (cols : list string) :
  holds_bundle fs c cols ->
  ui_predict ui = true ->
  valid (fields_of ui) = true ->
  inference_calls (trace (script fs ui))
  = [from_records [input_dict (fields_of ui)] cols].
Proof.
  intros (d & Hfs & Hm & HF) Hb Hv.
  destruct (form_quiet ui) as (Hq & _ & _).
  rewrite (script_trace_loaded fs ui d _ cols Hfs Hm HF Hb).
  change (JoblibLoad MODEL_PATH :: ?t) with ([JoblibLoad MODEL_PATH] ++ t).
  rewrite !inference_calls_app, Hq.
  change (Render (Button "Predict") :: ?t)
    with ([Render (Button "Predict")] ++ t).
  rewrite inference_calls_app, validate_calls, Hv. reflexivity.
Qed.

Lemma script_valid_not_stopped (fs : Disk) (ui : UI) (c : Classifier)
    (cols : list string) :
  holds_bundle fs c cols ->
  ui_predict ui = true ->
  valid (fields_of ui) = true ->
  ending (script fs ui) <> inl StopException.
Proof.
  intros (d & Hfs & Hm & HF) Hb Hv.
  rewrite (script_after_load fs ui d _ _ Hfs Hm HF).
  unfold below_form, X_input, pd_DataFrame, st_button. rewrite Hb.
  cbn [emit ret bind app ending snd].
  pose proof (validate_valid_not_stopped (Model c)
                (from_records [input_dict (fields_of ui)] cols)
                (fields_of ui) Hv) as Hns.
  destruct (validate_and_predict (Model c) _ (fields_of ui))
    as [t [h|r]]; cbn in *; congruence.
Qed.

Lemma join_concat (sep : string) (parts : list string) :
  join sep parts = String.concat sep parts.
Proof.
  induction parts as [|s rest IH]; [reflexivity|].
  destruct rest as [|t rest]; [reflexivity|].
  cbn [join String.concat] in *. rewrite IH. reflexivity.
Qed.

(** C1: when the button is pressed and at least one of the five device
    measurements equals 0, the run ends in [st.stop()] right after a warning
    whose text ends with the display names of exactly the zero-valued
    fields, in form order, separated by ", ": each of the five names is
    listed if and only if its own measurement is zero.  The classifier is
    not asked anything and no prediction reaches the page; the body of the
    button does so whatever the model and the frame are. *)
Theorem zero_measurement_is_missing (fs : Disk) (ui : UI) (d : dict entry)
    (m : entry) (cols : list string) :
  fs MODEL_PATH = Some (Pickle (Dict d)) ->
  get "model" d = Some m ->
  get "features" d = Some (Names cols) ->
  ui_predict ui = true ->
  ((ui_ps_velocity ui =? 0)%float = true
   \/ (ui_ps_sway_area ui =? 0)%float = true
   \/ (ui_ps_sway_path ui =? 0)%float = true
   \/ (ui_w_velocity ui =? 0)%float = true
   \/ (ui_w_duration ui =? 0)%float = true) ->
  let names :=
    map fst
      (filter (fun item => (snd item =? 0)%float)
         [ ("Postural Stability Velocity", ui_ps_velocity ui);
           ("Postural Stability Sway Area", ui_ps_sway_area ui);
           ("Postural Stability Sway Path", ui_ps_sway_path ui);
           ("Walking Velocity", ui_w_velocity ui);
           ("Walking Duration", ui_w_duration ui) ]) in
  let message :=
    ("⚠️ Please complete the Postural Stability and Walking test measurements using the Lockhart Monitor app before prediction."
     ++ String "010"
          (String "010"
             ("Missing or zero values: " ++ String.concat ", " names)))%string
  in
  let run := script fs ui in
  ending run = inl StopException
  /\ rendered (trace run)
     = rendered (trace (form ui)) ++ [Button "Predict"; Warning message]
  /\ names <> []
  /\ (In "Postural Stability Velocity" names
      <-> (ui_ps_velocity ui =? 0)%float = true)
  /\ (In "Postural Stability Sway Area" names
      <-> (ui_ps_sway_area ui =? 0)%float = true)
  /\ (In "Postural Stability Sway Path" names
      <-> (ui_ps_sway_path ui =? 0)%float = true)
  /\ (In "Walking Velocity" names <-> (ui_w_velocity ui =? 0)%float = true)
  /\ (In "Walking Duration" names <-> (ui_w_duration ui =? 0)%float = true)
  /\ inference_calls (trace run) = []
  /\ filter shows_prediction (rendered (trace run)) = []
  /\ (forall m' X,
         validate_and_predict m' X (fields_of ui)
         = ([Render (Warning message)], inl StopException)).
Proof.
  intros Hfs Hm HF Hb Hz names message run.
  assert (Hnames : names = missing (fields_of ui)) by reflexivity.
  assert (Hmessage : message = warning_text (missing (fields_of ui))).
  { unfold message, names, warning_text.
    rewrite <- (join_concat ", "). reflexivity. }
  assert (Hv : valid (fields_of ui) = false)
    by (apply valid_false_iff; exact Hz).
  destruct (form_quiet ui) as (Hq & Hs & _).
  assert (Hrun : run = (JoblibLoad MODEL_PATH
                          :: trace (form ui)
                          ++ [Render (Button "Predict");
                              Render (Warning message)],
                        inl StopException)).
  { rewrite Hmessage. apply (script_stops fs ui d m cols); assumption. }
  assert (Hr : rendered (trace run)
               = rendered (trace (form ui))
                 ++ [Button "Predict"; Warning message]).
  { rewrite Hrun. cbn [trace fst].
    change (JoblibLoad MODEL_PATH :: ?t) with ([JoblibLoad MODEL_PATH] ++ t).
    rewrite !rendered_app. reflexivity. }
  split; [rewrite Hrun; reflexivity|].
  split; [exact Hr|].
  split; [rewrite Hnames; apply missing_nonempty; exact Hv|].
  assert (Hiff :
    (In "Postural Stability Velocity" names
     <-> (ui_ps_velocity ui =? 0)%float = true)
    /\ (In "Postural Stability Sway Area" names
        <-> (ui_ps_sway_area ui =? 0)%float = true)
    /\ (In "Postural Stability Sway Path" names
        <-> (ui_ps_sway_path ui =? 0)%float = true)
    /\ (In "Walking Velocity" names
        <-> (ui_w_velocity ui =? 0)%float = true)
    /\ (In "Walking Duration" names
        <-> (ui_w_duration ui =? 0)%float = true)).
  { unfold names. cbn [filter snd].
    destruct (ui_ps_velocity ui =? 0)%float,
      (ui_ps_sway_area ui =? 0)%float, (ui_ps_sway_path ui =? 0)%float,
      (ui_w_velocity ui =? 0)%float, (ui_w_duration ui =? 0)%float;
      cbn [map fst In];
      repeat split; intro H;
      first [ reflexivity
            | discriminate H
            | solve [auto 10]
            | solve [repeat (destruct H as [H|H]; [discriminate H|]);
                     destruct H] ]. }
  destruct Hiff as (H1 & H2 & H3 & H4 & H5).
  split; [exact H1|]. split; [exact H2|]. split; [exact H3|].
  split; [exact H4|]. split; [exact H5|].
  split.
  - rewrite Hrun. cbn [trace fst].
    change (JoblibLoad MODEL_PATH :: ?t) with ([JoblibLoad MODEL_PATH] ++ t).
    rewrite !inference_calls_app, Hq. reflexivity.
  - split.
    + rewrite Hr, filter_app, Hs. reflexivity.
    + intros m' X. rewrite Hmessage. apply validate_stops. exact Hv.
Qed.

(** All five measurements left at their initial [0.0]: the warning names
    all five fields. *)
Lemma zero_measurement_is_missing_witness :
  skipn 23
    (rendered (trace (script (disk_with (constant_classifier 0.7)
                                trained_features) untouched_ui)))
  = [Button "Predict";
     Warning
       ("⚠️ Please complete the Postural Stability and Walking test measurements using the Lockhart Monitor app before prediction."
        ++ String "010"
             (String "010"
                "Missing or zero values: Postural Stability Velocity, Postural Stability Sway Area, Postural Stability Sway Path, Walking Velocity, Walking Duration"))].
Proof.
  destruct (zero_measurement_is_missing
              (disk_with (constant_classifier 0.7) trained_features)
              untouched_ui
              [("model", Model (constant_classifier 0.7));
               ("features", Names trained_features)]
              (Model (constant_classifier 0.7)) trained_features
              eq_refl eq_refl eq_refl eq_refl (or_introl eq_refl))
    as (_ & Hpage & _).
  rewrite Hpage. vm_compute. reflexivity.
Defined.

(** C9: the button's body ends in [st.stop()] if and only if one of the
    five device measurements equals 0.  The five inputs have no bounds, so
    negative measurements are let through by the widgets, pass validation,
    and reach the classifier in the frame. *)
Theorem stop_iff_some_zero :
  (forall (m : entry) (X : DataFrame) (v : Fields),
      ending (validate_and_predict m X v) = inl StopException
      <-> some_zero v)
  /\ (forall x : float,
         admits_float ps_velocity_input x = true
         /\ admits_float ps_sway_area_input x = true
         /\ admits_float ps_sway_path_input x = true
         /\ admits_float w_velocity_input x = true
         /\ admits_float w_duration_input x = true)
  /\ (forall (fs : Disk) (ui : UI) (c : Classifier) (cols : list string),
         holds_bundle fs c cols ->
         ui_predict ui = true ->
         all_negative (fields_of ui) ->
         let X := from_records [input_dict (fields_of ui)] cols in
         ending (script fs ui) <> inl StopException
         /\ inference_calls (trace (script fs ui)) = [X]
         /\ rows X = [map (cell (input_dict (fields_of ui))) cols]
         /\ cell (input_dict (fields_of ui)) "PS_Velocity"
            = VFloat (ui_ps_velocity ui)
         /\ cell (input_dict (fields_of ui)) "PS_Sway_Area"
            = VFloat (ui_ps_sway_area ui)
         /\ cell (input_dict (fields_of ui)) "PS_Sway_Path"
            = VFloat (ui_ps_sway_path ui)
         /\ cell (input_dict (fields_of ui)) "W_Velocity"
            = VFloat (ui_w_velocity ui)
         /\ cell (input_dict (fields_of ui)) "W_Duration"
            = VFloat (ui_w_duration ui)).
Proof.
  split; [|split].
  - intros m X v. split.
    + intro H. apply valid_false_iff.
      destruct (valid v) eqn:Hv; [|reflexivity].
      exfalso. exact (validate_valid_not_stopped m X v Hv H).
    + intro H. apply valid_false_iff in H.
      rewrite (validate_stops m X v H). reflexivity.
  - intro x. repeat split; reflexivity.
  - intros fs ui c cols Hbundle Hb Hneg X.
    pose proof (all_negative_valid _ Hneg) as Hv.
    split; [exact (script_valid_not_stopped fs ui c cols Hbundle Hb Hv)|].
    split; [exact (script_inference_valid fs ui c cols Hbundle Hb Hv)|].
    repeat split; reflexivity.
Qed.

(** ** The feature frame *)

Lemma get_permutation {V : Type} (k : string) (d d' : dict V) :
  Permutation d d' -> NoDup (keys d) -> get k d = get k d'.
Proof.
  induction 1 as [| [k1 v1] l l' Hperm IH
                  | [k1 v1] [k2 v2] l
                  | l l' l'' H1 IH1 H2 IH2]; intro Hnd.
  - reflexivity.
  - cbn [get]. destruct (String.eqb k k1); [reflexivity|].
    apply IH. cbn in Hnd. inversion Hnd; assumption.
  - cbn [get].
    destruct (String.eqb k k1) eqn:E1, (String.eqb k k2) eqn:E2;
      try reflexivity.
    apply String.eqb_eq in E1, E2. subst k1 k2.
    cbn in Hnd. inversion Hnd as [|? ? Hnotin ?]. subst.
    exfalso. apply Hnotin. left. reflexivity.
  - rewrite IH1 by assumption. apply IH2.
    unfold keys in *.
    eapply Permutation_NoDup; [|exact Hnd].
    apply Permutation_map. assumption.
Qed.

Lemma input_dict_keys (v : Fields) : keys (input_dict v) = trained_features.
Proof. reflexivity. Qed.

Lemma trained_features_NoDup : NoDup trained_features.
Proof.
  unfold trained_features.
  repeat (constructor; [cbn; intuition discriminate|]). constructor.
Qed.

Lemma from_records_permutation (record record' : dict scalar)
    (cols : list string) :
  Permutation record record' ->
  NoDup (keys record) ->
  from_records [record'] cols = from_records [record] cols.
Proof.
  intros Hperm Hnd. unfold from_records. cbn [map]. f_equal. f_equal.
  apply map_ext. intro col. unfold cell.
  rewrite (get_permutation col record record' Hperm Hnd). reflexivity.
Qed.

Lemma row_follows_columns (record : dict scalar) (cols : list string)
    (i : nat) (name : string) :
  nth_error cols i = Some name ->
  nth_error (map (cell record) cols) i = Some (cell record name).
Proof. intro H. rewrite nth_error_map, H. reflexivity. Qed.

Lemma literal_record_NoDup (ui : UI) :
  NoDup
    (keys
       [ ("Gender",
          VInt (if String.eqb (ui_gender ui) "Female" then 0%Z else 1%Z));
         ("Height", VFloat (ui_height ui));
         ("Hypertension", VInt (ui_hypertension ui));
         ("ODI", VFloat (ui_odi ui));
         ("VAS", VFloat (ui_vas ui));
         ("PS_Velocity", VFloat (ui_ps_velocity ui));
         ("PS_Sway_Area", VFloat (ui_ps_sway_area ui));
         ("PS_Sway_Path", VFloat (ui_ps_sway_path ui));
         ("W_Velocity", VFloat (ui_w_velocity ui));
         ("W_Duration", VFloat (ui_w_duration ui));
         ("Medication_Count", VInt (ui_medication_count ui)) ]).
Proof. exact trained_features_NoDup. Qed.

(** C2: with the bundle loaded, the button pressed and all five device
    measurements nonzero, the classifier is handed one frame whose column
    labels are the bundle's feature list, in that order, and whose single
    row holds at each position the form's value for the feature named
    there: the coded gender under "Gender", the entered height under
    "Height", and so on for the eleven fields (NaN under a name the form
    does not have).  Every frame a run hands to the classifier has the
    declared list as its columns, and the frame is the same in whatever
    order the record's eleven entries were put together. *)
Theorem frame_follows_FEATURES :
  (forall (fs : Disk) (ui : UI) (c : Classifier) (cols : list string),
      holds_bundle fs c cols ->
      ui_predict ui = true ->
      valid (fields_of ui) = true ->
      let expected :=
        (fun name : string =>
        if String.eqb name "Gender"
        then VInt (if String.eqb (ui_gender ui) "Female" then 0%Z else 1%Z)
        else if String.eqb name "Height" then VFloat (ui_height ui)
        else if String.eqb name "Hypertension"
        then VInt (ui_hypertension ui)
        else if String.eqb name "ODI" then VFloat (ui_odi ui)
        else if String.eqb name "VAS" then VFloat (ui_vas ui)
        else if String.eqb name "PS_Velocity"
        then VFloat (ui_ps_velocity ui)
        else if String.eqb name "PS_Sway_Area"
        then VFloat (ui_ps_sway_area ui)
        else if String.eqb name "PS_Sway_Path"
        then VFloat (ui_ps_sway_path ui)
        else if String.eqb name "W_Velocity" then VFloat (ui_w_velocity ui)
        else if String.eqb name "W_Duration" then VFloat (ui_w_duration ui)
        else if String.eqb name "Medication_Count"
        then VInt (ui_medication_count ui)
        else VFloat nan) in
      exists X row,
        inference_calls (trace (script fs ui)) = [X]
        /\ columns X = cols
        /\ rows X = [row]
        /\ List.length row = List.length cols
        /\ forall i name,
             nth_error cols i = Some name ->
             nth_error row i = Some (expected name))
  /\ (forall (fs : Disk) (ui : UI) (d : dict entry) (cols : list string)
             (X : DataFrame),
         fs MODEL_PATH = Some (Pickle (Dict d)) ->
         get "features" d = Some (Names cols) ->
         In X (inference_calls (trace (script fs ui))) ->
         columns X = cols)
  /\ (forall (ui : UI) (record : dict scalar) (cols : list string),
         let expected :=
           (fun name : string =>
        if String.eqb name "Gender"
        then VInt (if String.eqb (ui_gender ui) "Female" then 0%Z else 1%Z)
        else if String.eqb name "Height" then VFloat (ui_height ui)
        else if String.eqb name "Hypertension"
        then VInt (ui_hypertension ui)
        else if String.eqb name "ODI" then VFloat (ui_odi ui)
        else if String.eqb name "VAS" then VFloat (ui_vas ui)
        else if String.eqb name "PS_Velocity"
        then VFloat (ui_ps_velocity ui)
        else if String.eqb name "PS_Sway_Area"
        then VFloat (ui_ps_sway_area ui)
        else if String.eqb name "PS_Sway_Path"
        then VFloat (ui_ps_sway_path ui)
        else if String.eqb name "W_Velocity" then VFloat (ui_w_velocity ui)
        else if String.eqb name "W_Duration" then VFloat (ui_w_duration ui)
        else if String.eqb name "Medication_Count"
        then VInt (ui_medication_count ui)
        else VFloat nan) in
         Permutation
           [ ("Gender",
              VInt (if String.eqb (ui_gender ui) "Female" then 0%Z else 1%Z));
             ("Height", VFloat (ui_height ui));
             ("Hypertension", VInt (ui_hypertension ui));
             ("ODI", VFloat (ui_odi ui));
             ("VAS", VFloat (ui_vas ui));
             ("PS_Velocity", VFloat (ui_ps_velocity ui));
             ("PS_Sway_Area", VFloat (ui_ps_sway_area ui));
             ("PS_Sway_Path", VFloat (ui_ps_sway_path ui));
             ("W_Velocity", VFloat (ui_w_velocity ui));
             ("W_Duration", VFloat (ui_w_duration ui));
             ("Medication_Count", VInt (ui_medication_count ui)) ]
           record ->
         from_records [record] cols
         = {| columns := cols; rows := [map expected cols] |}).
Proof.
  assert (Hcell : forall (ui : UI) (name : string),
             cell (input_dict (fields_of ui)) name
             = ((fun name : string =>
        if String.eqb name "Gender"
        then VInt (if String.eqb (ui_gender ui) "Female" then 0%Z else 1%Z)
        else if String.eqb name "Height" then VFloat (ui_height ui)
        else if String.eqb name "Hypertension"
        then VInt (ui_hypertension ui)
        else if String.eqb name "ODI" then VFloat (ui_odi ui)
        else if String.eqb name "VAS" then VFloat (ui_vas ui)
        else if String.eqb name "PS_Velocity"
        then VFloat (ui_ps_velocity ui)
        else if String.eqb name "PS_Sway_Area"
        then VFloat (ui_ps_sway_area ui)
        else if String.eqb name "PS_Sway_Path"
        then VFloat (ui_ps_sway_path ui)
        else if String.eqb name "W_Velocity" then VFloat (ui_w_velocity ui)
        else if String.eqb name "W_Duration" then VFloat (ui_w_duration ui)
        else if String.eqb name "Medication_Count"
        then VInt (ui_medication_count ui)
        else VFloat nan)) name).
  { intros ui name. unfold cell, input_dict, fields_of.
    cbn [get gender height_cm hypertension medication_count odi vas
           ps_velocity ps_sway_area ps_sway_path w_velocity w_duration].
    repeat (match goal with
            | |- context [String.eqb name ?k] =>
                destruct (String.eqb name k); [reflexivity|]
            end).
    reflexivity. }
  split; [|split].
  - intros fs ui c cols Hbundle Hb Hv expected.
    exists (from_records [input_dict (fields_of ui)] cols).
    exists (map (cell (input_dict (fields_of ui))) cols).
    split; [exact (script_inference_valid fs ui c cols Hbundle Hb Hv)|].
    split; [reflexivity|]. split; [reflexivity|].
    split; [apply length_map|].
    intros i name Hi. rewrite (row_follows_columns _ cols i name Hi).
    f_equal. apply Hcell.
  - intros fs ui d cols X Hfs HF HX.
    destruct (script_inference fs ui)
      as [Hnone | (d' & c & F & X' & Hfs' & _ & HF' & HX' & _ & _ & Hcalls)].
    + rewrite Hnone in HX. destruct HX.
    + rewrite Hcalls in HX. destruct HX as [<-|[]].
      rewrite Hfs in Hfs'. injection Hfs' as <-.
      rewrite HF in HF'. injection HF' as <-.
      unfold X_input, pd_DataFrame, ret in HX'. injection HX' as <-.
      reflexivity.
  - intros ui record cols expected Hperm.
    rewrite (from_records_permutation _ record cols Hperm
               (literal_record_NoDup ui)).
    unfold from_records. cbn [map]. f_equal. f_equal.
    apply map_ext. intro name. apply (Hcell ui name).
Qed.

(** A bundle trained on the features in another order gets them in that
    order. *)
Example frame_in_bundle_order :
  inference_calls
    (trace (script (disk_with (constant_classifier 0.7)
                      ["W_Duration"; "Gender"; "ODI"])
              scenario_ui))
  = [ {| columns := ["W_Duration"; "Gender"; "ODI"];
         rows := [[VFloat 6.2; VInt 0; VFloat 10]] |} ].
Proof. vm_compute. reflexivity. Qed.

(** ** The probability *)

Lemma disk_with_holds (c : Classifier) (cols : list string) :
  holds_bundle (disk_with c cols) c cols.
Proof.
  exists [("model", Model c); ("features", Names cols)].
  repeat split; reflexivity.
Qed.

Lemma constant_classifier_probabilities (p : float) :
  is_probability p = true ->
  is_probability (1 - p) = true ->
  returns_class_probabilities (constant_classifier p).
Proof.
  intros Hp Hq X. exists (map (fun _ => [(1 - p)%float; p]) (rows X)).
  split; [reflexivity|]. split; [apply length_map|].
  induction (rows X) as [|r rest IH]; constructor.
  - split; [reflexivity|]. repeat constructor; assumption.
  - exact IH.
Qed.

(** C6: with the bundle loaded, the button pressed and all five device
    measurements nonzero, a classifier that returns class probabilities
    makes the run end with a probability between 0 and 1. *)
Theorem probability_in_unit_interval (fs : Disk) (ui : UI) (c : Classifier)
    (cols : list string) :
  holds_bundle fs c cols ->
  returns_class_probabilities c ->
  ui_predict ui = true ->
  valid (fields_of ui) = true ->
  exists p,
    ending (script fs ui) = inr (Some (p, pred p))
    /\ (0 <=? p)%float = true
    /\ (p <=? 1)%float = true.
Proof.
  intros Hbundle Hc Hb Hv.
  destruct (Hc (from_records [input_dict (fields_of ui)] cols))
    as (proba & Hproba & Hlen & Hrows).
  cbn in Hlen.
  destruct proba as [|row [|row' rest]]; try discriminate.
  inversion Hrows as [|? ? [Hrow Hps] _]. subst.
  destruct row as [|a [|p [|x row]]]; try discriminate.
  inversion Hps as [|? ? _ Hps']. subst.
  inversion Hps' as [|? ? Hp _]. subst.
  exists p. split.
  - rewrite (script_predicts fs ui c cols [[a; p]] p Hbundle Hb Hv Hproba eq_refl).
    reflexivity.
  - unfold is_probability in Hp. apply andb_true_iff in Hp. exact Hp.
Qed.

(** The scenario of the specification, with a classifier that answers
    0.7. *)
Lemma probability_in_unit_interval_witness :
  exists p,
    ending (script (disk_with (constant_classifier 0.7) trained_features)
              scenario_ui)
    = inr (Some (p, pred p))
    /\ (0 <=? p)%float = true
    /\ (p <=? 1)%float = true.
Proof.
  apply (probability_in_unit_interval
           (disk_with (constant_classifier 0.7) trained_features)
           scenario_ui (constant_classifier 0.7) trained_features).
  - apply disk_with_holds.
  - apply constant_classifier_probabilities; reflexivity.
  - reflexivity.
  - reflexivity.
Defined.

(** ** The run as a function of the record *)

Lemma input_dict_injective (v v' : Fields) :
  input_dict v = input_dict v' -> v = v'.
Proof.
  destruct v, v'. unfold input_dict. cbn. intro H.
  inversion H. reflexivity.
Qed.

Lemma script_of_fields (fs : Disk) (ui ui' : UI) :
  fields_of ui = fields_of ui' ->
  ui_predict ui = ui_predict ui' ->
  script fs ui = script fs ui'.
Proof.
  intros Hf Hb.
  destruct (artifact_cases fs) as [Hbad | (d & m & F & Hfs & Hm & HF)].
  - unfold script.
    destruct (load_bundle_fails fs Hbad) as [e He]. rewrite He. reflexivity.
  - rewrite (script_after_load fs ui d m F Hfs Hm HF).
    rewrite (script_after_load fs ui' d m F Hfs Hm HF).
    rewrite Hf, Hb, (form_trace_fixed ui ui'). reflexivity.
Qed.

(** ** Formatting to three decimals *)

Lemma uint_all_digits (d : Decimal.uint) :
  all_digits (NilEmpty.string_of_uint d) = true.
Proof. induction d; cbn; auto. Qed.

Lemma string_of_Z_digits (z : Z) :
  (0 <= z)%Z ->
  string_of_Z z <> EmptyString /\ all_digits (string_of_Z z) = true.
Proof.
  intro Hz. unfold string_of_Z.
  destruct z as [|p|p]; [split; [discriminate|reflexivity]| |lia].
  cbn [Z.to_int NilZero.string_of_int]. unfold NilZero.string_of_uint.
  split.
  - destruct (Pos.to_uint p); discriminate.
  - destruct (Pos.to_uint p) eqn:E; try reflexivity;
      rewrite <- E; apply uint_all_digits.
Qed.

Lemma digit_is_digit (d : Z) : (0 <= d < 10)%Z -> is_digit (digit d) = true.
Proof.
  intro H.
  assert (Hd : (d = 0 \/ d = 1 \/ d = 2 \/ d = 3 \/ d = 4 \/ d = 5
                \/ d = 6 \/ d = 7 \/ d = 8 \/ d = 9)%Z) by lia.
  repeat (destruct Hd as [->|Hd]; [reflexivity|]). subst d. reflexivity.
Qed.

Lemma fixed3_three_decimals (s : bool) (n : Z) :
  (0 <= n)%Z -> three_decimals (fixed3 s n).
Proof.
  intro Hn. unfold fixed3, decimals3.
  destruct (string_of_Z_digits (n / 1000)) as [Hne Hd];
    [apply Z.div_pos; lia|].
  exists s, (string_of_Z (n / 1000)).
  exists (digit (n mod 1000 / 100 mod 10)),
    (digit (n mod 1000 / 10 mod 10)), (digit (n mod 1000 mod 10)).
  split; [reflexivity|]. split; [exact Hne|]. split; [exact Hd|].
  repeat split; apply digit_is_digit; apply Z.mod_pos_bound; lia.
Qed.

Lemma thousandths_nonneg (m : positive) (e : Z) : (0 <= thousandths m e)%Z.
Proof.
  unfold thousandths. destruct (0 <=? e)%Z eqn:He.
  - apply Z.leb_le in He.
    pose proof (Z.pow_nonneg 2 e ltac:(lia)). nia.
  - unfold round_half_even_shift.
    assert (Hden : (0 < 2 ^ (- e))%Z)
      by (apply Z.pow_pos_nonneg; apply Z.leb_gt in He; lia).
    assert (Hq : (0 <= Z.pos m * 1000 / 2 ^ (- e))%Z)
      by (apply Z.div_pos; lia).
    destruct (2 * ((Z.pos m * 1000) mod 2 ^ (- e)) ?= 2 ^ (- e))%Z;
      [destruct (Z.even _)| |]; lia.
Qed.

(** A float that compares within [0, 1] is a number, and it prints with
    three decimals. *)
Lemma format_3f_three_decimals (p : float) :
  is_probability p = true -> three_decimals (format_3f p).
Proof.
  unfold is_probability. rewrite andb_true_iff, !leb_spec.
  unfold SFleb, format_3f. intros [H0 H1].
  destruct (Prim2SF p) as [s|s| |s m e].
  - apply (fixed3_three_decimals s 0). lia.
  - destruct s; vm_compute in H0, H1; discriminate.
  - vm_compute in H0. discriminate.
  - apply fixed3_three_decimals, thousandths_nonneg.
Qed.

(** ** What a prediction puts on the page *)

Lemma form_no_banner (ui : UI) :
  filter is_high_banner (rendered (trace (form ui))) = []
  /\ filter is_low_banner (rendered (trace (form ui))) = [].
Proof. split; vm_compute; reflexivity. Qed.

Lemma form_no_banner_element (ui : UI) (body : string) :
  ~ In (Error body) (rendered (trace (form ui)))
  /\ ~ In (Success body) (rendered (trace (form ui))).
Proof.
  split; intro Hin; vm_compute in Hin;
    repeat (destruct Hin as [Hin|Hin]; [discriminate Hin|]); exact Hin.
Qed.

Lemma format_3f_shape (p : float) :
  match Prim2SF p with
  | S754_nan => format_3f p = "nan"
  | S754_infinity s => format_3f p = if s then "-inf" else "inf"
  | S754_zero _ | S754_finite _ _ _ => three_decimals (format_3f p)
  end.
Proof.
  unfold format_3f. destruct (Prim2SF p) as [s|s| |s m e].
  - apply (fixed3_three_decimals s 0). lia.
  - destruct s; reflexivity.
  - reflexivity.
  - apply fixed3_three_decimals, thousandths_nonneg.
Qed.

(** C8, as the script has it: a run that ends with a prediction (p, l) adds
    below the button, in this order, the probability line holding p
    formatted by [:.3f], the label line holding l, and one banner: the
    "High Fall Risk" error banner when l is 1, the "Low Fall Risk" success
    banner when l is 0; l is one of the two and the form above holds no
    error or success element.  The formatted text has three decimals when p
    is a finite number, so for every probability within [0, 1]; it is
    "nan", "inf" or "-inf" when the classifier's answer is not. *)
Theorem prediction_output (fs : Disk) (ui : UI) (p : float) (l : Z) :
  ending (script fs ui) = inr (Some (p, l)) ->
  let text := format_3f p in
  (l = 1%Z \/ l = 0%Z)
  /\ rendered (trace (script fs ui))
     = rendered (trace (form ui))
       ++ [Button "Predict";
           Write ("**Probability of Faller (%):** `" ++ text ++ "`");
           Write ("**Predicted Fall Status:** `"
                  ++ (if (l =? 1)%Z then "1" else "0") ++ "`");
           if (l =? 1)%Z
           then Error "**High Fall Risk** (Predicted: Faller = 1)"
           else Success "**Low Fall Risk** (Predicted: Non-faller = 0)"]
  /\ (forall body,
         ~ In (Error body) (rendered (trace (form ui)))
         /\ ~ In (Success body) (rendered (trace (form ui))))
  /\ match Prim2SF p with
     | S754_nan => text = "nan"
     | S754_infinity s => text = if s then "-inf" else "inf"
     | S754_zero _ | S754_finite _ _ _ => three_decimals text
     end
  /\ (is_probability p = true -> three_decimals text).
Proof.
  intros H text.
  destruct (script_success fs ui p l H)
    as (d & c & F & X & proba & Hfs & Hm & HF & HX & Hb & Hv & Hc & Hi & ->).
  split; [apply pred_cases|].
  split.
  - rewrite (script_predicts_frame fs ui d c F X proba p
               Hfs Hm HF HX Hb Hv Hc Hi).
    cbn [trace fst].
    change (JoblibLoad MODEL_PATH :: ?t) with ([JoblibLoad MODEL_PATH] ++ t).
    rewrite !rendered_app.
    destruct (pred_cases p) as [E|E]; rewrite E; reflexivity.
  - split; [apply form_no_banner_element|].
    split; [apply format_3f_shape | apply format_3f_three_decimals].
Qed.

(** The scenario of the specification with a classifier that answers 0.7:
    "0.700", label 1, the high-risk banner. *)
Lemma prediction_output_witness :
  skipn 23
    (rendered (trace (script (disk_with (constant_classifier 0.7)
                                trained_features) scenario_ui)))
  = [Button "Predict";
     Write "**Probability of Faller (%):** `0.700`";
     Write "**Predicted Fall Status:** `1`";
     Error "**High Fall Risk** (Predicted: Faller = 1)"].
Proof.
  destruct (prediction_output
              (disk_with (constant_classifier 0.7) trained_features)
              scenario_ui 0.7%float 1%Z
              ltac:(vm_compute; reflexivity))
    as (_ & Hpage & _).
  rewrite Hpage. vm_compute. reflexivity.
Defined.

(** C8, as stated, fails: a classifier that answers infinity gives a
    successful prediction whose probability line reads "inf", with no
    decimals at all. *)
Lemma infinite_answer_prints_no_decimals :
  ending (script (disk_with (constant_classifier infinity) trained_features)
            scenario_ui)
  = inr (Some (infinity, 1%Z))
  /\ skipn 23
       (rendered (trace (script (disk_with (constant_classifier infinity)
                                   trained_features) scenario_ui)))
     = [Button "Predict";
        Write "**Probability of Faller (%):** `inf`";
        Write "**Predicted Fall Status:** `1`";
        Error "**High Fall Risk** (Predicted: Faller = 1)"].
Proof. split; vm_compute; reflexivity. Qed.

(** ** Cells of the frame *)

Lemma lookup_row_present (record : dict scalar) (cols : list string)
    (name : string) :
  In name cols ->
  lookup_row cols (map (cell record) cols) name = Some (cell record name).
Proof.
  induction cols as [|c cols IH]; intro Hin; [destruct Hin|].
  cbn [map lookup_row]. destruct (String.eqb name c) eqn:E.
  - apply String.eqb_eq in E. subst c. reflexivity.
  - apply IH. destruct Hin as [->|Hin]; [|exact Hin].
    rewrite String.eqb_refl in E. discriminate.
Qed.

Lemma lookup_row_absent (record : dict scalar) (cols : list string)
    (name : string) :
  ~ In name cols ->
  lookup_row cols (map (cell record) cols) name = None.
Proof.
  induction cols as [|c cols IH]; intro Hnin; [reflexivity|].
  cbn [map lookup_row]. destruct (String.eqb name c) eqn:E.
  - apply String.eqb_eq in E. subst c. exfalso. apply Hnin. left. reflexivity.
  - apply IH. intro Hin. apply Hnin. right. exact Hin.
Qed.

Lemma cell_undeclared (v : Fields) (name : string) :
  ~ In name trained_features -> cell (input_dict v) name = VFloat nan.
Proof.
  intro Hnin. unfold cell.
  assert (Hget : get name (input_dict v) = None).
  { rewrite <- (input_dict_keys v) in Hnin. unfold keys in Hnin.
    induction (input_dict v) as [|[k x] rest IH]; [reflexivity|].
    cbn [get]. destruct (String.eqb name k) eqn:E.
    - apply String.eqb_eq in E. subst k. exfalso. apply Hnin. left.
      reflexivity.
    - apply IH. intro Hin. apply Hnin. right. exact Hin. }
  rewrite Hget. reflexivity.
Qed.

(** ** The ODI input *)

(** C5: the ODI number input is declared with bounds 0 and 100 under a label
    that says "(0–50)", as do the instructions above it; it lets through
    exactly the values between 0 and 100, 75 among them, and the value it
    returns is the record's ["ODI"] entry and the frame's ["ODI"] cell,
    unchanged. *)
Theorem odi_bounded_by_widget :
  label odi_input = "ODI Score (0–50)"
  /\ min_value odi_input = Some 0%float
  /\ max_value odi_input = Some 100%float
  /\ (forall ui : UI,
         nth_error (rendered (trace (form ui))) 9
         = Some (Markdown
                   ("[Open ODI questionnaire PDF](" ++ ODI_URL ++ ")  " ++ nl
                    ++ "Please complete the questionnaire and enter the final ODI score (0–50) below."))
         /\ nth_error (rendered (trace (form ui))) 10
            = Some (FloatInput odi_input))
  /\ (forall x : float,
         admits_float odi_input x = true
         <-> (0 <=? x)%float = true /\ (x <=? 100)%float = true)
  /\ (forall ui : UI,
         widgets_admit ui = true ->
         (0 <=? ui_odi ui)%float = true /\ (ui_odi ui <=? 100)%float = true)
  /\ (admits_float odi_input 75 = true /\ (50 <? 75)%float = true)
  /\ (forall ui : UI,
         exists v, ending (form ui) = inr v
                   /\ odi v = ui_odi ui
                   /\ get "ODI" (input_dict v) = Some (VFloat (ui_odi ui)))
  /\ (forall (ui : UI) (cols : list string),
         In "ODI" cols ->
         at_ (from_records [input_dict (fields_of ui)] cols) 0 "ODI"
         = Some (VFloat (ui_odi ui))).
Proof.
  assert (Hadmits : forall x : float,
             admits_float odi_input x = true
             <-> (0 <=? x)%float = true /\ (x <=? 100)%float = true).
  { intro x. unfold admits_float, odi_input, above, below.
    cbn [min_value max_value]. apply andb_true_iff. }
  split; [reflexivity|]. split; [reflexivity|]. split; [reflexivity|].
  split; [intro ui; split; reflexivity|].
  split; [exact Hadmits|].
  split.
  { intros ui H. apply Hadmits. unfold widgets_admit in H.
    repeat (apply andb_true_iff in H; destruct H as [H ?]).
    assumption. }
  split; [split; reflexivity|].
  split.
  - intro ui. exists (fields_of ui). repeat split; reflexivity.
  - intros ui cols Hin. unfold at_, from_records.
    cbn [rows columns map nth_error].
    rewrite (lookup_row_present _ cols "ODI" Hin). reflexivity.
Qed.

(** ** Feature names are not checked *)

(** How a run ends once the classifier has been asked: as its answer
    says. *)
Lemma script_ending_valid (fs : Disk) (ui : UI) (c : Classifier)
    (cols : list string) :
  holds_bundle fs c cols ->
  ui_predict ui = true ->
  valid (fields_of ui) = true ->
  ending (script fs ui) =
    match predict_proba c (from_records [input_dict (fields_of ui)] cols) with
    | Raise e => inl (Uncaught e)
    | Ok proba =>
        match nth_error proba 0 with
        | Some row =>
            match nth_error row 1 with
            | Some p => inr (Some (p, pred p))
            | None => inl (Uncaught IndexError)
            end
        | None => inl (Uncaught IndexError)
        end
    end.
Proof.
  intros Hbundle Hb Hv.
  destruct (predict_proba c (from_records [input_dict (fields_of ui)] cols))
    as [proba|e] eqn:Hc.
  - destruct (nth_error proba 0) as [row|] eqn:Hrow;
      [destruct (nth_error row 1) as [p|] eqn:Hp|].
    + rewrite (script_predicts fs ui c cols proba p Hbundle Hb Hv Hc);
        [reflexivity|].
      unfold index2. rewrite Hrow, Hp. reflexivity.
    + destruct Hbundle as (d & Hfs & Hm & HF).
      rewrite (script_after_load fs ui d _ _ Hfs Hm HF).
      unfold below_form, X_input, pd_DataFrame, st_button. rewrite Hb.
      rewrite valid_missing in Hv. apply negb_true_iff in Hv.
      unfold validate_and_predict, call_predict_proba, index2.
      rewrite Hv. cbn [emit ret bind app]. rewrite Hc.
      cbn [emit ret bind app]. rewrite Hrow, Hp. reflexivity.
    + destruct Hbundle as (d & Hfs & Hm & HF).
      rewrite (script_after_load fs ui d _ _ Hfs Hm HF).
      unfold below_form, X_input, pd_DataFrame, st_button. rewrite Hb.
      rewrite valid_missing in Hv. apply negb_true_iff in Hv.
      unfold validate_and_predict, call_predict_proba, index2.
      rewrite Hv. cbn [emit ret bind app]. rewrite Hc.
      cbn [emit ret bind app]. rewrite Hrow. reflexivity.
  - destruct Hbundle as (d & Hfs & Hm & HF).
    rewrite (script_after_load fs ui d _ _ Hfs Hm HF).
    unfold below_form, X_input, pd_DataFrame, st_button. rewrite Hb.
    rewrite valid_missing in Hv. apply negb_true_iff in Hv.
    unfold validate_and_predict, call_predict_proba.
    rewrite Hv. cbn [emit ret bind app]. rewrite Hc. reflexivity.
Qed.

(** C10: whatever names the bundle declares, a run with the button pressed
    and nonzero measurements builds the frame under those names and asks
    the classifier about it: a declared name the form does not assemble
    gets a NaN cell, an assembled field that is not declared has no column,
    and the run ends as the classifier's answer says; nothing in between
    compares the two lists of names. *)
Theorem feature_names_unchecked (fs : Disk) (ui : UI) (c : Classifier)
    (cols : list string) :
  holds_bundle fs c cols ->
  ui_predict ui = true ->
  valid (fields_of ui) = true ->
  let X := from_records [input_dict (fields_of ui)] cols in
  keys (input_dict (fields_of ui)) = trained_features
  /\ inference_calls (trace (script fs ui)) = [X]
  /\ columns X = cols
  /\ (forall name,
         In name cols -> ~ In name trained_features ->
         at_ X 0 name = Some (VFloat nan))
  /\ (forall name,
         In name trained_features -> ~ In name cols ->
         at_ X 0 name = None)
  /\ ending (script fs ui) =
       match predict_proba c X with
       | Raise e => inl (Uncaught e)
       | Ok proba =>
           match nth_error proba 0 with
           | Some row =>
               match nth_error row 1 with
               | Some p => inr (Some (p, pred p))
               | None => inl (Uncaught IndexError)
               end
           | None => inl (Uncaught IndexError)
           end
       end.
Proof.
  intros Hbundle Hb Hv X.
  split; [reflexivity|].
  split; [exact (script_inference_valid fs ui c cols Hbundle Hb Hv)|].
  split; [reflexivity|].
  split; [|split].
  - intros name Hin Hnin. unfold X, at_, from_records.
    cbn [rows columns map nth_error].
    rewrite (lookup_row_present _ cols name Hin).
    rewrite (cell_undeclared _ name Hnin). reflexivity.
  - intros name _ Hnin. unfold X, at_, from_records.
    cbn [rows columns map nth_error].
    apply lookup_row_absent. exact Hnin.
  - exact (script_ending_valid fs ui c cols Hbundle Hb Hv).
Qed.

(** A bundle that declares ["Age"] and ["ODI"] only: the frame has a NaN
    under ["Age"], the other ten fields are gone, and the prediction is
    rendered. *)
Lemma feature_names_unchecked_witness :
  let fs := disk_with (constant_classifier 0.7) ["Age"; "ODI"] in
  inference_calls (trace (script fs scenario_ui))
  = [ {| columns := ["Age"; "ODI"]; rows := [[VFloat nan; VFloat 10]] |} ]
  /\ ending (script fs scenario_ui) = inr (Some (0.7%float, 1%Z)).
Proof.
  destruct (feature_names_unchecked
              (disk_with (constant_classifier 0.7) ["Age"; "ODI"])
              scenario_ui (constant_classifier 0.7) ["Age"; "ODI"]
              (disk_with_holds _ _) eq_refl eq_refl)
    as (_ & Hcalls & _ & _ & _ & Hend).
  split; [exact Hcalls | exact Hend].
Defined.

(** ** Loading the bundle *)

Lemma loads_app (t u : list event) : loads (t ++ u) = (loads t + loads u)%nat.
Proof. unfold loads. rewrite filter_app. apply length_app. Qed.

Lemma validate_loads (m : entry) (X : DataFrame) (v : Fields) :
  loads (trace (validate_and_predict m X v)) = 0%nat.
Proof.
  destruct (valid v) eqn:Hv.
  - rewrite valid_missing in Hv. apply negb_true_iff in Hv.
    unfold validate_and_predict, call_predict_proba. rewrite Hv.
    destruct m as [c|names| |]; try reflexivity.
    cbn [emit ret bind app].
    destruct (predict_proba c X) as [proba|e]; [|reflexivity].
    cbn [emit ret bind app].
    destruct (index2_cases proba 0 1) as [[x Hx]|Hx]; rewrite Hx.
    + cbn [ret bind app emit]. destruct (pred x =? 1)%Z; reflexivity.
    + reflexivity.
  - rewrite (validate_stops m X v Hv). reflexivity.
Qed.

Lemma below_form_loads (m F : entry) (clicked : bool) (v : Fields) :
  loads (trace (below_form m F clicked v)) = 0%nat.
Proof.
  destruct (X_input_cases F v) as [[X HX]|HX].
  - rewrite (below_form_frame m F clicked v X HX). cbn [trace fst].
    destruct clicked; [|reflexivity].
    change (Render (Button "Predict") :: ?t)
      with ([Render (Button "Predict")] ++ t).
    rewrite loads_app, validate_loads. reflexivity.
  - rewrite (below_form_refused m F clicked v HX). reflexivity.
Qed.

(** Every run reads the artifact first, and once. *)
Lemma script_loads_once (fs : Disk) (ui : UI) :
  hd_error (trace (script fs ui)) = Some (JoblibLoad MODEL_PATH)
  /\ loads (trace (script fs ui)) = 1%nat.
Proof.
  destruct (artifact_cases fs) as [Hbad | (d & m & F & Hfs & Hm & HF)].
  - destruct (script_load_fails fs ui Hbad) as [e He].
    rewrite He. split; reflexivity.
  - rewrite (script_after_load fs ui d m F Hfs Hm HF).
    split; [reflexivity|].
    cbn [trace fst].
    change (JoblibLoad MODEL_PATH :: ?t) with ([JoblibLoad MODEL_PATH] ++ t).
    rewrite !loads_app, below_form_loads.
    destruct (form_quiet ui) as (_ & _ & Hl). rewrite Hl. reflexivity.
Qed.

(** C4, as the script has it: every run reads the bundle first and once;
    when the artifact is absent or unreadable, or is not a dictionary with
    both a ["model"] and a ["features"] entry, that run ends there with the
    exception, with nothing rendered and the classifier not asked. *)
Theorem load_failure_aborts_run (fs : Disk) (ui : UI) :
  artifact_unusable fs ->
  (exists e, script fs ui = ([JoblibLoad MODEL_PATH], inl (Uncaught e)))
  /\ rendered (trace (script fs ui)) = []
  /\ inference_calls (trace (script fs ui)) = []
  /\ (forall (fs' : Disk) (ui' : UI),
         hd_error (trace (script fs' ui')) = Some (JoblibLoad MODEL_PATH)
         /\ loads (trace (script fs' ui')) = 1%nat).
Proof.
  intro Hbad.
  destruct (script_load_fails fs ui Hbad) as [e He].
  split; [exists e; exact He|].
  rewrite He. split; [reflexivity|]. split; [reflexivity|].
  exact script_loads_once.
Qed.

(** No artifact on the disk: the run ends with [FileNotFoundError]. *)
Lemma load_failure_aborts_run_witness :
  script empty_disk scenario_ui
  = ([JoblibLoad MODEL_PATH], inl (Uncaught (FileNotFoundError MODEL_PATH)))
  /\ rendered (trace (script empty_disk scenario_ui)) = [].
Proof.
  destruct (load_failure_aborts_run empty_disk scenario_ui I)
    as (_ & Hnothing & _).
  split; [reflexivity | exact Hnothing].
Defined.

(** C4, as stated, fails: a bundle whose feature names are not the form's
    loads, and the run goes on to a prediction; and a run that failed for
    want of the artifact is followed, in the same session, by one that
    reads it again and predicts. *)
Lemma feature_mismatch_is_not_fatal :
  existsb (String.eqb "Age") trained_features = false
  /\ ending (script (disk_with (constant_classifier 0.7) ["Age"; "ODI"])
               scenario_ui)
     = inr (Some (0.7%float, 1%Z))
  /\ map (fun run => (loads (trace run), ending run))
       (session
          [(empty_disk, scenario_ui);
           (disk_with (constant_classifier 0.7) trained_features,
            scenario_ui)])
     = [(1%nat, inl (Uncaught (FileNotFoundError MODEL_PATH)));
        (1%nat, inr (Some (0.7%float, 1%Z)))].
Proof. repeat split; vm_compute; reflexivity. Qed.

(** ** Scenarios *)

Example format_3f_half : format_3f 0.5 = "0.500".
Proof. vm_compute. reflexivity. Qed.

(** 0.0625 is a tie between 0.062 and 0.063: the even one wins. *)
Example format_3f_tie_even : format_3f 0.0625 = "0.062".
Proof. vm_compute. reflexivity. Qed.

(** The binary64 number nearest to 0.0005 lies just above it. *)
Example format_3f_up : format_3f 0.0005 = "0.001".
Proof. vm_compute. reflexivity. Qed.

Example format_3f_one : format_3f 1 = "1.000".
Proof. vm_compute. reflexivity. Qed.

Example format_3f_neg_zero : format_3f (-0) = "-0.000".
Proof. vm_compute. reflexivity. Qed.

Example format_3f_nan : format_3f nan = "nan".
Proof. vm_compute. reflexivity. Qed.

(** All five device fields at 0: the warning lists all five names and
    nothing else follows the button. *)
Example scenario_all_zero :
  skipn 23
    (rendered (trace (script (disk_with (constant_classifier 0.7)
                                trained_features) untouched_ui)))
  = [Button "Predict";
     Warning (warning_text
                ["Postural Stability Velocity";
                 "Postural Stability Sway Area";
                 "Postural Stability Sway Path";
                 "Walking Velocity"; "Walking Duration"])].
Proof. vm_compute. reflexivity. Qed.

(** A classifier that answers 0.2: label 0 and the low-risk banner. *)
Example scenario_low_risk :
  skipn 24
    (rendered (trace (script (disk_with (constant_classifier 0.2)
                                trained_features) scenario_ui)))
  = [Write "**Probability of Faller (%):** `0.200`";
     Write "**Predicted Fall Status:** `0`";
     Success "**Low Fall Risk** (Predicted: Non-faller = 0)"].
Proof. vm_compute. reflexivity. Qed.

(** Negative measurements go through to the classifier. *)
Example scenario_negative :
  inference_calls
    (trace (script (disk_with (constant_classifier 0.7)
                      ["PS_Velocity"; "W_Duration"])
              (measured_ui (-1) (-2) (-3) (-4) (-5))))
  = [ {| columns := ["PS_Velocity"; "W_Duration"];
         rows := [[VFloat (-1); VFloat (-5)]] |} ].
Proof. vm_compute. reflexivity. Qed.

(** A minus zero counts as missing too. *)
Example scenario_minus_zero :
  missing (fields_of (measured_ui 1 (-0) 3 4 5))
  = ["Postural Stability Sway Area"].
Proof. vm_compute. reflexivity. Qed.

(** * Further properties of the script *)

(** ** Runs without a press, and what a run may ask of the classifier *)



Lemma valid_explicit (ui : UI) :
  valid (fields_of ui) = true ->
  (ui_ps_velocity ui =? 0)%float = false
  /\ (ui_ps_sway_area ui =? 0)%float = false
  /\ (ui_ps_sway_path ui =? 0)%float = false
  /\ (ui_w_velocity ui =? 0)%float = false
  /\ (ui_w_duration ui =? 0)%float = false.
Proof.
  unfold valid, required_fields, fields_of, is_zero.
  cbn [forallb snd ps_velocity ps_sway_area ps_sway_path w_velocity
         w_duration].
  destruct (ui_ps_velocity ui =? 0)%float, (ui_ps_sway_area ui =? 0)%float,
    (ui_ps_sway_path ui =? 0)%float, (ui_w_velocity ui =? 0)%float,
    (ui_w_duration ui =? 0)%float; cbn; intro H;
    first [discriminate H | repeat split; reflexivity].
Qed.

(** X2: a run asks the classifier at most one question, and asks it only
    when the artifact held a dictionary with an object under ["model"] that
    has [predict_proba] and with a ["features"] entry, the button was
    pressed, and none of the five device measurements equals 0. *)
Theorem classifier_asked_only_when_valid (fs : Disk) (ui : UI) :
  (List.length (inference_calls (trace (script fs ui))) <= 1)%nat
  /\ (inference_calls (trace (script fs ui)) <> [] ->
      ui_predict ui = true
      /\ ((ui_ps_velocity ui =? 0)%float = false
          /\ (ui_ps_sway_area ui =? 0)%float = false
          /\ (ui_ps_sway_path ui =? 0)%float = false
          /\ (ui_w_velocity ui =? 0)%float = false
          /\ (ui_w_duration ui =? 0)%float = false)
      /\ exists d c F,
           fs MODEL_PATH = Some (Pickle (Dict d))
           /\ get "model" d = Some (Model c)
           /\ get "features" d = Some F).
Proof.
  destruct (script_inference fs ui)
    as [Hnone | (d & c & F & X & Hfs & Hm & HF & _ & Hb & Hv & Hcalls)].
  - rewrite Hnone. split; [cbn; lia|]. intro H. exfalso. apply H. reflexivity.
  - rewrite Hcalls. split; [cbn; lia|]. intros _.
    split; [exact Hb|]. split; [exact (valid_explicit ui Hv)|].
    exists d, c, F. auto.
Qed.

(** ** A prediction is rendered whole or not at all *)

Lemma validate_page (m : entry) (X : DataFrame) (v : Fields) :
  filter shows_prediction (rendered (trace (validate_and_predict m X v))) =
    match ending (validate_and_predict m X v) with
    | inr (p, l) => prediction_lines p l
    | inl _ => []
    end.
Proof.
  destruct (valid v) eqn:Hv.
  - destruct m as [c|names| |].
    + destruct (predict_proba c X) as [proba|e] eqn:Hc.
      * destruct (index2_cases proba 0 1) as [[x Hx]|Hx].
        -- rewrite (validate_predicts c X v proba x Hv Hc Hx).
           unfold prediction_lines. cbn [trace ending fst snd].
           destruct (pred x =? 1)%Z; reflexivity.
        -- rewrite valid_missing in Hv. apply negb_true_iff in Hv.
           unfold validate_and_predict, call_predict_proba.
           rewrite Hv, Hc. cbn [emit ret bind app]. rewrite Hx. reflexivity.
      * rewrite valid_missing in Hv. apply negb_true_iff in Hv.
        unfold validate_and_predict, call_predict_proba.
        rewrite Hv, Hc. reflexivity.
    + rewrite valid_missing in Hv. apply negb_true_iff in Hv.
      unfold validate_and_predict, call_predict_proba. rewrite Hv.
      reflexivity.
    + rewrite valid_missing in Hv. apply negb_true_iff in Hv.
      unfold validate_and_predict, call_predict_proba. rewrite Hv.
      reflexivity.
    + rewrite valid_missing in Hv. apply negb_true_iff in Hv.
      unfold validate_and_predict, call_predict_proba. rewrite Hv.
      reflexivity.
  - rewrite (validate_stops m X v Hv). reflexivity.
Qed.

Lemma below_form_page (m F : entry) (clicked : bool) (v : Fields) :
  filter shows_prediction (rendered (trace (below_form m F clicked v))) =
    match ending (below_form m F clicked v) with
    | inr (Some (p, l)) => prediction_lines p l
    | inr None | inl _ => []
    end.
Proof.
  destruct (X_input_cases F v) as [[X HX]|HX].
  - rewrite (below_form_frame m F clicked v X HX). cbn [trace ending fst snd].
    destruct clicked; [|reflexivity].
    change (Render (Button "Predict") :: ?t)
      with ([Render (Button "Predict")] ++ t).
    rewrite rendered_app, filter_app. cbn [rendered flat_map filter app].
    rewrite validate_page.
    destruct (ending (validate_and_predict m X v)) as [h|[p l]]; reflexivity.
  - rewrite (below_form_refused m F clicked v HX). reflexivity.
Qed.

(** X3: the probability line, the label line and the banner appear
    together, after the classifier has answered, or not at all: a run that
    ends in a prediction shows exactly these three, and a run that ends any
    other way (no press, a warning, an exception from loading, from the
    classifier or from indexing its answer) shows none of them. *)
Theorem prediction_all_or_nothing (fs : Disk) (ui : UI) :
  filter shows_prediction (rendered (trace (script fs ui))) =
    match ending (script fs ui) with
    | inr (Some (p, l)) => prediction_lines p l
    | inr None | inl _ => []
    end.
Proof.
  destruct (artifact_cases fs) as [Hbad | (d & m & F & Hfs & Hm & HF)].
  - destruct (script_load_fails fs ui Hbad) as [e He].
    rewrite He. reflexivity.
  - rewrite (script_after_load fs ui d m F Hfs Hm HF).
    cbn [trace ending fst snd].
    change (JoblibLoad MODEL_PATH :: ?t) with ([JoblibLoad MODEL_PATH] ++ t).
    rewrite !rendered_app, !filter_app.
    destruct (form_quiet ui) as (_ & Hs & _). rewrite Hs.
    cbn [rendered flat_map filter app].
    apply below_form_page.
Qed.

(** ** An answer that is not a number *)

(** X4: the classifier's answer is not checked before it is compared and
    shown (lines 145-154).  When entry [0, 1] of the answer is NaN, the
    comparison [>= 0.50] is false: the run reports label 0, prints [nan] and
    shows the low-risk banner. *)
Theorem nan_answer_reads_low_risk (fs : Disk) (ui : UI) (c : Classifier)
    (cols : list string) (proba : list (list float)) :
  holds_bundle fs c cols ->
  ui_predict ui = true ->
  valid (fields_of ui) = true ->
  predict_proba c (from_records [input_dict (fields_of ui)] cols) = Ok proba ->
  index2 proba 0 1 = ret nan ->
  ending (script fs ui) = inr (Some (nan, 0%Z))
  /\ rendered (trace (script fs ui))
     = rendered (trace (form ui))
       ++ [Button "Predict";
           Write "**Probability of Faller (%):** `nan`";
           Write "**Predicted Fall Status:** `0`";
           Success "**Low Fall Risk** (Predicted: Non-faller = 0)"].
Proof.
  intros Hbundle Hb Hv Hc Hi.
  rewrite (script_predicts fs ui c cols proba nan Hbundle Hb Hv Hc Hi).
  split; [reflexivity|].
  cbn [trace fst].
  change (JoblibLoad MODEL_PATH :: ?t) with ([JoblibLoad MODEL_PATH] ++ t).
  rewrite !rendered_app. reflexivity.
Qed.

(** A classifier that answers NaN for every row. *)
Lemma nan_answer_reads_low_risk_witness :
  ending (script (disk_with (constant_classifier nan) trained_features)
            scenario_ui)
  = inr (Some (nan, 0%Z)).
Proof.
  exact (proj1 (nan_answer_reads_low_risk
                  (disk_with (constant_classifier nan) trained_features)
                  scenario_ui (constant_classifier nan) trained_features
                  [[nan; nan]]
                  (disk_with_holds _ _) eq_refl eq_refl eq_refl eq_refl)).
Defined.

(** ** The fresh form *)

(** X5: as long as the five device inputs hold the value they were
    declared with (lines 71-97), pressing the button ends the run in
    [st.stop()] with the warning, spelled out below, that lists all five
    display names in form order, whatever the other six inputs hold and
    whatever the bundle declares; the classifier is not asked. *)
Theorem untouched_devices_list_all_five (fs : Disk) (ui : UI)
    (d : dict entry) (m : entry) (cols : list string) :
  fs MODEL_PATH = Some (Pickle (Dict d)) ->
  get "model" d = Some m ->
  get "features" d = Some (Names cols) ->
  ui_predict ui = true ->
  device_inputs_untouched ui ->
  ending (script fs ui) = inl StopException
  /\ rendered (trace (script fs ui))
     = rendered (trace (form ui))
       ++ [Button "Predict";
           Warning
             ("⚠️ Please complete the Postural Stability and Walking test measurements using the Lockhart Monitor app before prediction."
              ++ String "010"
                   (String "010"
                      "Missing or zero values: Postural Stability Velocity, Postural Stability Sway Area, Postural Stability Sway Path, Walking Velocity, Walking Duration"))%string]
  /\ inference_calls (trace (script fs ui)) = [].
Proof.
  intros Hfs Hm HF Hb (H1 & H2 & H3 & H4 & H5).
  assert (Hmiss : missing (fields_of ui)
                  = ["Postural Stability Velocity";
                     "Postural Stability Sway Area";
                     "Postural Stability Sway Path"; "Walking Velocity";
                     "Walking Duration"]).
  { unfold missing, required_fields, fields_of.
    cbn [ps_velocity ps_sway_area ps_sway_path w_velocity w_duration].
    rewrite H1, H2, H3, H4, H5. reflexivity. }
  assert (Hv : valid (fields_of ui) = false)
    by (rewrite valid_missing, Hmiss; reflexivity).
  rewrite (script_stops fs ui d m cols Hfs Hm HF Hb Hv), Hmiss.
  destruct (form_quiet ui) as (Hq & _ & _).
  split; [reflexivity|].
  cbn [trace fst].
  change (JoblibLoad MODEL_PATH :: ?t) with ([JoblibLoad MODEL_PATH] ++ t).
  split.
  - rewrite !rendered_app. reflexivity.
  - rewrite !inference_calls_app, Hq. reflexivity.
Qed.

(** Everything else filled in, the measurements not yet entered. *)
Lemma untouched_devices_list_all_five_witness :
  ending (script (disk_with (constant_classifier 0.7) trained_features)
            {| ui_gender := "Male"; ui_height := 181.5%float;
               ui_hypertension := 1%Z; ui_medication_count := 3%Z;
               ui_odi := 24%float; ui_vas := 6.5%float;
               ui_ps_velocity := 0%float; ui_ps_sway_area := 0%float;
               ui_ps_sway_path := 0%float; ui_w_velocity := 0%float;
               ui_w_duration := 0%float; ui_predict := true |})
  = inl StopException.
Proof.
  refine (proj1 (untouched_devices_list_all_five
                  (disk_with (constant_classifier 0.7) trained_features)
                  {| ui_gender := "Male"; ui_height := 181.5%float;
                     ui_hypertension := 1%Z; ui_medication_count := 3%Z;
                     ui_odi := 24%float; ui_vas := 6.5%float;
                     ui_ps_velocity := 0%float; ui_ps_sway_area := 0%float;
                     ui_ps_sway_path := 0%float; ui_w_velocity := 0%float;
                     ui_w_duration := 0%float; ui_predict := true |}
                  [("model", Model (constant_classifier 0.7));
                   ("features", Names trained_features)]
                  (Model (constant_classifier 0.7)) trained_features
                  eq_refl eq_refl eq_refl eq_refl _)).
  repeat split; reflexivity.
Defined.

(** ** What the widgets let into the record *)

(** X6: when every widget returns a value it admits (one of its options,
    or a number within its declared bounds), the variables the form leaves
    behind are: gender 0 for "Female" and 1 for "Male" (line 25), height
    within [80, 250], hypertension 0 or 1, medication count within [0, 50]
    and VAS within [0, 10]. *)
Theorem admitted_record_in_range (ui : UI) :
  widgets_admit ui = true ->
  exists v,
    ending (form ui) = inr v
    /\ (ui_gender ui = "Female" /\ gender v = 0%Z
        \/ ui_gender ui = "Male" /\ gender v = 1%Z)
    /\ ((80 <=? height_cm v)%float = true
        /\ (height_cm v <=? 250)%float = true)
    /\ (hypertension v = 0%Z \/ hypertension v = 1%Z)
    /\ (0 <= medication_count v <= 50)%Z
    /\ ((0 <=? vas v)%float = true /\ (vas v <=? 10)%float = true)
    /\ get "Gender" (input_dict v) = Some (VInt (gender v))
    /\ get "Height" (input_dict v) = Some (VFloat (height_cm v))
    /\ get "Hypertension" (input_dict v) = Some (VInt (hypertension v))
    /\ get "Medication_Count" (input_dict v)
       = Some (VInt (medication_count v))
    /\ get "VAS" (input_dict v) = Some (VFloat (vas v)).
Proof.
  intro H. exists (fields_of ui). unfold widgets_admit in H.
  repeat (apply andb_true_iff in H; destruct H as [H ?]).
  split; [reflexivity|].
  split.
  { cbn [existsb gender_box sb_options] in H.
    unfold fields_of. cbn [gender].
    destruct (String.eqb (ui_gender ui) "Female") eqn:EF.
    - left. apply String.eqb_eq in EF. auto.
    - right. cbn [orb] in H. rewrite orb_false_r in H.
      apply String.eqb_eq in H. auto. }
  split.
  { match goal with
    | Hh : admits_float height_input _ = true |- _ =>
        unfold admits_float, height_input, above, below in Hh;
        cbn [min_value max_value] in Hh; apply andb_true_iff in Hh;
        exact Hh
    end. }
  split.
  { match goal with
    | Hh : existsb (Z.eqb (ui_hypertension ui)) _ = true |- _ =>
        cbn [existsb hypertension_box sb_options] in Hh;
        rewrite orb_false_r in Hh; apply orb_true_iff in Hh;
        destruct Hh as [Hh|Hh]; apply Z.eqb_eq in Hh; cbn; auto
    end. }
  split.
  { match goal with
    | Hh : admits_int medication_input _ = true |- _ =>
        unfold admits_int, medication_input, above, below in Hh;
        cbn [min_value max_value] in Hh; apply andb_true_iff in Hh;
        destruct Hh as [Hlo Hhi]; apply Z.leb_le in Hlo, Hhi; cbn; lia
    end. }
  split.
  { match goal with
    | Hh : admits_slider vas_slider _ = true |- _ =>
        unfold admits_slider, vas_slider in Hh; cbn [sl_min sl_max] in Hh;
        apply andb_true_iff in Hh; exact Hh
    end. }
  repeat split; reflexivity.
Qed.

Lemma admitted_record_in_range_witness :
  exists v,
    ending (form idle_ui) = inr v
    /\ gender v = 1%Z
    /\ (0 <= medication_count v <= 50)%Z.
Proof.
  destruct (admitted_record_in_range idle_ui eq_refl)
    as (v & Hv & Hg & _ & _ & Hm & _).
  exists v. split; [exact Hv|]. split; [|exact Hm].
  destruct Hg as [[Hf _]|[_ Hg]]; [discriminate Hf | exact Hg].
Defined.

(** ** The frame when the bundle declares the form's names *)

Lemma get_form_name (v : Fields) (name : string) :
  In name trained_features -> exists x, get name (input_dict v) = Some x.
Proof.
  unfold trained_features. cbn [In]. intro H.
  repeat (destruct H as [<-|H]; [eexists; reflexivity|]). destruct H.
Qed.

(** X7: line 119 fills nothing in when the bundle declares names the form
    assembles: every column under such a name holds the form's value for it,
    the row is as long as the declared list, and for a bundle that declares
    the eleven names in the form's order the row is the record's values as
    entered, in order. *)
Theorem frame_complete_for_form_names :
  (forall v : Fields,
      from_records [input_dict v] trained_features
      = {| columns := trained_features; rows := [map snd (input_dict v)] |})
  /\ (forall (v : Fields) (cols : list string),
         exists row, rows (from_records [input_dict v] cols) = [row]
                     /\ List.length row = List.length cols)
  /\ (forall (v : Fields) (cols : list string) (name : string),
         In name cols -> In name trained_features ->
         exists x, get name (input_dict v) = Some x
                   /\ at_ (from_records [input_dict v] cols) 0 name = Some x).
Proof.
  split; [intro v; reflexivity|]. split.
  - intros v cols. exists (map (cell (input_dict v)) cols).
    split; [reflexivity | apply length_map].
  - intros v cols name Hin Hform.
    destruct (get_form_name v name Hform) as [x Hx]. exists x.
    split; [exact Hx|].
    unfold at_, from_records. cbn [rows columns map nth_error].
    rewrite (lookup_row_present _ cols name Hin). unfold cell.
    rewrite Hx. reflexivity.
Qed.

(** ** The warning names the fields unambiguously *)

Lemma append_cancel (s a b : string) : (s ++ a = s ++ b)%string -> a = b.
Proof.
  induction s as [|c s IH]; cbn; intro H; [exact H|].
  injection H as H. apply IH. exact H.
Qed.

(** X8: the warning text of lines 137-141 tells which fields are zero:
    two forms get the same message only when each of the five device
    measurements is zero in both or in neither. *)
Theorem warning_determines_missing (v v' : Fields) :
  warning_text (missing v) = warning_text (missing v') ->
  (ps_velocity v =? 0)%float = (ps_velocity v' =? 0)%float
  /\ (ps_sway_area v =? 0)%float = (ps_sway_area v' =? 0)%float
  /\ (ps_sway_path v =? 0)%float = (ps_sway_path v' =? 0)%float
  /\ (w_velocity v =? 0)%float = (w_velocity v' =? 0)%float
  /\ (w_duration v =? 0)%float = (w_duration v' =? 0)%float.
Proof.
  unfold warning_text. intro H.
  repeat (apply append_cancel in H).
  revert H. unfold missing, required_fields, is_zero. cbn [filter snd].
  destruct (ps_velocity v =? 0)%float, (ps_sway_area v =? 0)%float,
    (ps_sway_path v =? 0)%float, (w_velocity v =? 0)%float,
    (w_duration v =? 0)%float;
    destruct (ps_velocity v' =? 0)%float, (ps_sway_area v' =? 0)%float,
      (ps_sway_path v' =? 0)%float, (w_velocity v' =? 0)%float,
      (w_duration v' =? 0)%float;
    cbn; intro H;
    first [discriminate H | repeat split; reflexivity].
Qed.

(** The untouched form and a form whose zeros are partly minus zeros get
    the same message: the same fields are zero in both. *)
Lemma warning_determines_missing_witness :
  (ps_velocity (fields_of untouched_ui) =? 0)%float
  = (ps_velocity (fields_of (measured_ui (-0) 0 (-0) 0 0)) =? 0)%float.
Proof.
  exact (proj1 (warning_determines_missing
                  (fields_of untouched_ui)
                  (fields_of (measured_ui (-0) 0 (-0) 0 0)) eq_refl)).
Defined.

(** ** The printed probability *)











(** ** What the script reads of the artifact *)

(** X11: which exception ends a run whose bundle cannot be used (lines
    10-12): a missing file raises [FileNotFoundError] for the artifact's
    path; a dictionary without ["model"] raises [KeyError] for ["model"],
    whether or not ["features"] is there, because line 11 runs first; a
    dictionary with ["model"] but without ["features"] raises [KeyError]
    for ["features"].  In each case the load is the run's only event. *)
Theorem load_failure_kinds (fs : Disk) (ui : UI) :
  (fs MODEL_PATH = None ->
   script fs ui
   = ([JoblibLoad MODEL_PATH],
      inl (Uncaught (FileNotFoundError "catboost_fall_model.joblib"))))
  /\ (forall d,
         fs MODEL_PATH = Some (Pickle (Dict d)) ->
         get "model" d = None ->
         script fs ui
         = ([JoblibLoad MODEL_PATH], inl (Uncaught (KeyError "model"))))
  /\ (forall d m,
         fs MODEL_PATH = Some (Pickle (Dict d)) ->
         get "model" d = Some m ->
         get "features" d = None ->
         script fs ui
         = ([JoblibLoad MODEL_PATH], inl (Uncaught (KeyError "features")))).
Proof.
  split; [|split].
  - intro Hfs. unfold script, load_bundle, joblib_load. rewrite Hfs.
    reflexivity.
  - intros d Hfs Hm. unfold script, load_bundle, joblib_load, getitem.
    rewrite Hfs. cbn [emit ret bind app]. rewrite Hm. reflexivity.
  - intros d m Hfs Hm HF. unfold script, load_bundle, joblib_load, getitem.
    rewrite Hfs. cbn [emit ret bind app]. rewrite Hm.
    cbn [emit ret bind app]. rewrite HF. reflexivity.
Qed.

(** X12: of the disk a run reads the artifact only, and of the artifact
    the ["model"] and ["features"] entries only: two disks whose bundles
    agree on these two give the same run, whatever else the bundles or the
    disks hold. *)
Theorem only_model_and_features_matter (fs fs' : Disk) (ui : UI)
    (d d' : dict entry) (m F : entry) :
  fs MODEL_PATH = Some (Pickle (Dict d)) ->
  fs' MODEL_PATH = Some (Pickle (Dict d')) ->
  get "model" d = Some m -> get "model" d' = Some m ->
  get "features" d = Some F -> get "features" d' = Some F ->
  script fs ui = script fs' ui.
Proof.
  intros Hfs Hfs' Hm Hm' HF HF'.
  rewrite (script_after_load fs ui d m F Hfs Hm HF).
  rewrite (script_after_load fs' ui d' m F Hfs' Hm' HF').
  reflexivity.
Qed.

(** A bundle that also carries a version and a threshold, on a disk with
    another file. *)
Lemma only_model_and_features_matter_witness :
  script (disk_with (constant_classifier 0.7) trained_features) scenario_ui
  = script (disk_with_more (constant_classifier 0.7) trained_features)
      scenario_ui.
Proof.
  exact (only_model_and_features_matter
           (disk_with (constant_classifier 0.7) trained_features)
           (disk_with_more (constant_classifier 0.7) trained_features)
           scenario_ui
           [("model", Model (constant_classifier 0.7));
            ("features", Names trained_features)]
           [("version", Other); ("model", Model (constant_classifier 0.7));
            ("threshold", Other); ("features", Names trained_features)]
           (Model (constant_classifier 0.7)) (Names trained_features)
           eq_refl eq_refl eq_refl eq_refl eq_refl eq_refl).
Defined.

(** A bundle whose ["features"] entry is [None]: line 119 requests no
    columns, the frame takes the record's eleven keys in form order, and
    the classifier is asked about it. *)
Example scenario_no_feature_list :
  inference_calls
    (trace (script (disk_of [("model", Model (constant_classifier 0.7));
                             ("features", PyNone)])
              scenario_ui))
  = [ {| columns :=
           ["Gender"; "Height"; "Hypertension"; "ODI"; "VAS"; "PS_Velocity";
            "PS_Sway_Area"; "PS_Sway_Path"; "W_Velocity"; "W_Duration";
            "Medication_Count"];
         rows :=
           [[VInt 0; VFloat 170; VInt 0; VFloat 10; VFloat 2; VFloat 12.3;
             VFloat 4.5; VFloat 30; VFloat 0.9; VFloat 6.2; VInt 0]] |} ].
Proof. vm_compute. reflexivity. Qed.
